(** * CampScouter: a shallow embedding of [CampScouter.py]

    The script is glue code over three HTTP endpoints (geocoding, place
    text search, static map imagery) driven by a Streamlit form.  The
    embedding keeps the shape of the source:

    - Python values decoded from JSON are the inductive [pyval];
    - a Python exception is the [Raise] branch of [outcome];
    - the effects of the script (requests sent, lines printed, files
      written, elements put on the page) are fields of [world], threaded
      by the state-and-exception monad [M];
    - what the script cannot decide by itself (the answer of the remote
      server, the text Python prints for a float or for a quoted string,
      whether PIL recognises an image, whether a file can be opened and
      written) is a [Variable] of the section. *)

From Stdlib Require Import ZArith String Ascii List PrimFloat Strings.Byte.
From stdpp Require Import base option list strings gmap pretty.

Set Warnings "-register-all,-inexact-float".
Open Scope Z_scope.
Open Scope string_scope.

(** ** Python values *)

(** The values [json.loads] can build, which are also the values that the
    script stores in its own dictionaries.  A dictionary keeps its keys in
    insertion order, so it is an association list; keys are strings, as in
    JSON and as in the [place] dictionaries of [find_places]. *)
Inductive pyval : Type :=
  | PNone
  | PBool (b : bool)
  | PInt (z : Z)
  | PFloat (f : float)
  | PStr (s : string)
  | PList (l : list pyval)
  | PDict (d : list (string * pyval)).

Inductive exn : Type :=
  | KeyError (key : pyval)
  | IndexError
  | TypeError
  | AttributeError
  | ValueError
  | JSONDecodeError
  | RequestException
  | UnidentifiedImageError
  | FileNotFoundError
  | IsADirectoryError
  | PermissionError
  | OSError.

(** The result of evaluating a Python expression. *)
Inductive outcome (A : Type) : Type :=
  | Return (a : A)
  | Raise (e : exn).
Arguments Return {A} a.
Arguments Raise {A} e.

#[global] Instance outcome_ret : MRet outcome := fun _ a => Return a.
#[global] Instance outcome_bind : MBind outcome := fun _ _ f o =>
  match o with
  | Return a => f a
  | Raise e => Raise e
  end.

(** [d[k]] on the association list of a dictionary. *)
Fixpoint dict_lookup (k : string) (d : list (string * pyval)) : option pyval :=
  match d with
  | [] => None
  | (k', v) :: rest => if String.eqb k k' then Some v else dict_lookup k rest
  end.

(** [v[k]] for a string literal [k]: only a dictionary can be subscripted
    by a string; lists and strings want integers, the other values are not
    subscriptable. *)
Definition getitem_str (v : pyval) (k : string) : outcome pyval :=
  match v with
  | PDict d =>
      match dict_lookup k d with
      | Some x => Return x
      | None => Raise (KeyError (PStr k))
      end
  | _ => Raise TypeError
  end.

(** Position of a Python index in a sequence of length [len]: negative
    indices count from the end. *)
Definition seq_index (len : nat) (i : Z) : option nat :=
  if ((0 <=? i) && (i <? Z.of_nat len))%Z then Some (Z.to_nat i)
  else if ((i <? 0) && (- Z.of_nat len <=? i))%Z then Some (Z.to_nat (Z.of_nat len + i))
  else None.

Definition string_get (s : string) (n : nat) : option string :=
  match String.get n s with
  | Some c => Some (String c EmptyString)
  | None => None
  end.

(** [v[i]] for an integer [i]. *)
Definition getitem_int (v : pyval) (i : Z) : outcome pyval :=
  match v with
  | PList l =>
      match seq_index (length l) i with
      | Some n => match l !! n with Some x => Return x | None => Raise IndexError end
      | None => Raise IndexError
      end
  | PStr s =>
      match seq_index (String.length s) i with
      | Some n => match string_get s n with Some c => Return (PStr c) | None => Raise IndexError end
      | None => Raise IndexError
      end
  | PDict _ => Raise (KeyError (PInt i))
  | _ => Raise TypeError
  end.

(** [v.get(k, default)]: a method of dictionaries only. *)
Definition dict_get (v : pyval) (k : string) (default : pyval) : outcome pyval :=
  match v with
  | PDict d =>
      match dict_lookup k d with
      | Some x => Return x
      | None => Return default
      end
  | _ => Raise AttributeError
  end.

Fixpoint chars (s : string) : list string :=
  match s with
  | EmptyString => []
  | String c rest => String c EmptyString :: chars rest
  end.

(** The items a [for] loop visits: the elements of a list, the keys of a
    dictionary, the characters of a string; other values are not iterable. *)
Definition py_iter (v : pyval) : outcome (list pyval) :=
  match v with
  | PList l => Return l
  | PDict d => Return (map (fun kv => PStr (fst kv)) d)
  | PStr s => Return (map PStr (chars s))
  | _ => Raise TypeError
  end.

(** [v == s] for a string literal [s]. *)
Definition eq_str (v : pyval) (s : string) : bool :=
  match v with
  | PStr s' => String.eqb s' s
  | _ => false
  end.

Definition is_none (v : pyval) : bool :=
  match v with
  | PNone => true
  | _ => false
  end.

(** Truth value of a string and of a list: false when empty. *)
Definition truthy_str (s : string) : bool :=
  match s with
  | EmptyString => false
  | _ => true
  end.

Definition truthy_list {A : Type} (l : list A) : bool :=
  match l with
  | [] => false
  | _ => true
  end.

(** [l.index(x)] on a list of strings: the first position holding [x]. *)
Fixpoint list_index (x : string) (l : list string) : outcome nat :=
  match l with
  | [] => Raise ValueError
  | y :: rest => if String.eqb y x then Return 0%nat
                 else n ← list_index x rest; Return (S n)
  end.

(** ** The outside world *)

Record request : Type := mk_request {
  url : string;
  params : list (string * pyval)
}.

(** What [requests.get] hands back: the status line, the raw body, and what
    [response.json()] makes of the body. *)
Record response : Type := mk_response {
  status_code : Z;
  content : list byte;
  json : outcome pyval
}.

Inductive bytes_io : Type := BytesIO (buf : list byte).
Inductive image : Type := ImageOf (encoded : list byte).

(** What Streamlit puts on the page, top to bottom. *)
Inductive element : Type :=
  | Title (text : string)
  | TextInput (label : string) (value : string)
  | NumberInput (label : string) (min_value max_value value step : Z)
  | Selectbox (label : string) (options : list string) (index : nat)
  | Write (text : string)
  | Error (text : string)
  | Picture (img : image) (caption : string).

Record world : Type := mk_world {
  requests_sent : list request;
  stdout : list string;
  files : gmap string (list byte);
  page : list element
}.

Definition initial : world :=
  {| requests_sent := []; stdout := []; files := ∅; page := [] |}.

(** The state of the widgets when a render pass starts, keyed by widget
    label: what the user typed or picked, [None] for an untouched widget. *)
Record session : Type := mk_session {
  typed_text : string -> option string;
  typed_number : string -> option Z;
  picked : string -> option nat
}.

(** ** The monad of the script *)

Definition M (A : Type) : Type := world -> outcome A * world.

#[global] Instance M_ret : MRet M := fun _ a w => (Return a, w).
#[global] Instance M_bind : MBind M := fun _ _ f m w =>
  match m w with
  | (Return a, w') => f a w'
  | (Raise e, w') => (Raise e, w')
  end.

Definition pure {A : Type} (o : outcome A) : M A := fun w => (o, w).

(** The four ways the script changes the world. *)
Definition sent (req : request) (w : world) : world :=
  {| requests_sent := requests_sent w ++ [req]; stdout := stdout w;
     files := files w; page := page w |}.

Definition printed (line : string) (w : world) : world :=
  {| requests_sent := requests_sent w; stdout := stdout w ++ [line];
     files := files w; page := page w |}.

Definition stored (path : string) (data : list byte) (w : world) : world :=
  {| requests_sent := requests_sent w; stdout := stdout w;
     files := <[path := data]> (files w); page := page w |}.

Definition shown (e : element) (w : world) : world :=
  {| requests_sent := requests_sent w; stdout := stdout w;
     files := files w; page := page w ++ [e] |}.

Definition print (line : string) : M unit := fun w => (Return tt, printed line w).

(** What [with open(path, 'wb') as file: file.write(data)] comes to on a
    file system: every byte is put in the file; or [open] raises and the
    file system is left as it was; or the file is opened, hence created or
    emptied, and the write (or the flush when the file is closed) raises
    after the first [reached] bytes got to the file. *)
Inductive put_result : Type :=
  | Put
  | OpenRaises (e : exn)
  | WriteRaises (e : exn) (reached : nat).

Definition show (e : element) : M unit := fun w => (Return tt, shown e w).

(** ** Reading a JSON document by path

    The specification names parts of a payload by path, as in
    [results[0].geometry.location.lat].  [at_path] reads such a path on its
    own terms: a key selects in an object, a position in an array. *)
Inductive selector : Type :=
  | Key (k : string)
  | Idx (i : nat).

Fixpoint at_path (p : list selector) (v : pyval) : option pyval :=
  match p with
  | [] => Some v
  | Key k :: rest =>
      match v with
      | PDict d => match dict_lookup k d with Some x => at_path rest x | None => None end
      | _ => None
      end
  | Idx i :: rest =>
      match v with
      | PList l => match l !! i with Some x => at_path rest x | None => None end
      | _ => None
      end
  end.

(** ** A stub server and a stub session

    Closed data on which the script can be run, after the end-to-end
    scenarios of the specification: the address "1 Camp Rd" geocoded to
    45.0, -71.0; "Pine Camp" at 45.01, -71.01; an image whose bytes are
    PNGDATA. *)

(** A server that answers each of the three endpoints with a fixed
    response and refuses any other address. *)
Definition serve (geocoding search imagery : outcome response) (req : request)
    : outcome response :=
  if String.eqb (url req) "https://maps.googleapis.com/maps/api/geocode/json"
  then geocoding
  else if String.eqb (url req) "https://maps.googleapis.com/maps/api/place/textsearch/json"
  then search
  else if String.prefix "https://maps.googleapis.com/maps/api/staticmap?" (url req)
  then imagery
  else Raise RequestException.

Definition json_response (payload : pyval) : outcome response :=
  Return {| status_code := 200; content := []; json := Return payload |}.

Definition image_response (status : Z) (body : list byte) : outcome response :=
  Return {| status_code := status; content := body; json := Raise JSONDecodeError |}.

Definition location_json (lat lng : float) : pyval :=
  PDict [("location", PDict [("lat", PFloat lat); ("lng", PFloat lng)])].

Definition geocode_ok : pyval :=
  PDict [("results", PList [PDict [("geometry", location_json 45.0 (-71.0))]]);
         ("status", PStr "OK")].

Definition geocode_failed (status : string) : pyval :=
  PDict [("results", PList []); ("status", PStr status)].

Definition place_json (name : string) (lat lng : float) : pyval :=
  PDict [("name", PStr name); ("geometry", location_json lat lng)].

Definition search_json (results : list pyval) : pyval :=
  PDict [("results", PList results); ("status", PStr "OK")].

Definition pine_camp : pyval := place_json "Pine Camp" 45.01 (-71.01).
Definition lake_camp : pyval := place_json "Lake Camp" 45.02 (-71.02).

Definition png_data : list byte := list_byte_of_string "PNGDATA".

(** Python's [repr] on the floats of the scenarios; no other float occurs
    in them. *)
Definition repr_table (f : float) : string :=
  if (f =? 45.0)%float then "45.0"
  else if (f =? -71.0)%float then "-71.0"
  else if (f =? 45.01)%float then "45.01"
  else if (f =? -71.01)%float then "-71.01"
  else if (f =? 45.02)%float then "45.02"
  else if (f =? -71.02)%float then "-71.02"
  else "nan".

(** Python's [repr] on a string without quotes, backslashes or control
    characters. *)
Definition quote (s : string) : string := "'" +:+ s +:+ "'".

(** A one-pixel PNG image, byte for byte. *)
Definition tiny_png : list byte :=
  [x89; x50; x4e; x47; x0d; x0a; x1a; x0a; x00; x00; x00; x0d; x49; x48; x44; x52;
   x00; x00; x00; x01; x00; x00; x00; x01; x08; x00; x00; x00; x00; x3a; x7e; x9b;
   x55; x00; x00; x00; x0a; x49; x44; x41; x54; x78; x9c; x63; x60; x00; x00; x00;
   x02; x00; x01; x48; xaf; xa4; x71; x00; x00; x00; x00; x49; x45; x4e; x44; xae;
   x42; x60; x82].

(** A decoder that knows PNG only, by the eight bytes every PNG file
    starts with; the bytes PNGDATA do not start so. *)
Definition png_signature (buf : list byte) : bool :=
  match buf with
  | x89 :: x50 :: x4e :: x47 :: x0d :: x0a :: x1a :: x0a :: _ => true
  | _ => false
  end.

(** A working directory without sub-directories: a plain name can be
    written; the empty path, and a path through a directory, make [open]
    raise [FileNotFoundError]. *)
Definition flat_directory (path : string) (data : list byte) : put_result :=
  match path, String.index 0 "/" path with
  | EmptyString, _ => OpenRaises FileNotFoundError
  | _, Some _ => OpenRaises FileNotFoundError
  | _, None => Put
  end.

(** A file system whose disk is full: a file can be opened, but no byte
    of a write reaches it. *)
Definition full_disk (path : string) (data : list byte) : put_result :=
  match data with
  | [] => Put
  | _ => WriteRaises OSError 0
  end.

(** A session: the key and the address typed, the zoom set, the query
    left at its default, and the option at [index] picked. *)
Definition visit (key address : string) (zoom : Z) (index : nat) : session :=
  {| typed_text := fun label =>
       if String.eqb label "Enter your Google API Key" then Some key
       else if String.eqb label "Enter an address or location" then Some address
       else None;
     typed_number := fun label =>
       if String.eqb label "Zoom Level" then Some zoom else None;
     picked := fun label =>
       if String.eqb label "Select a place to view" then Some index else None |}.

(** The camp scenario: the address is found, the search lists Pine Camp,
    Lake Camp and Pine Camp once more, the image is served as a PNG. *)
Definition camp_server : request -> outcome response :=
  serve (json_response geocode_ok)
        (json_response (search_json [pine_camp; lake_camp; pine_camp]))
        (image_response 200 tiny_png).

Definition camp_entries : list (pyval * pyval * pyval) :=
  [(PStr "Pine Camp", PFloat 45.01, PFloat (-71.01));
   (PStr "Lake Camp", PFloat 45.02, PFloat (-71.02));
   (PStr "Pine Camp", PFloat 45.01, PFloat (-71.01))].

(** ** The script *)

Section CampScouter.

(** Python's [repr] of a float and of a string (quoting and escapes): text
    produced by the interpreter, not by the script. *)
Variable float_repr : float -> string.
Variable str_repr : string -> string.

(** The server behind [requests.get]: the answer to a request, or the
    exception the call raises. *)
Variable http_get : request -> outcome response.

(** Whether PIL recognises the encoding of a byte string. *)
Variable pil_identify : list byte -> bool.

(** The file system under [open]: what writing [data] at [path] comes to. *)
Variable fs : string -> list byte -> put_result.

Definition join (sep : string) (parts : list string) : string :=
  match parts with
  | [] => ""
  | p :: rest => fold_left (fun acc q => acc +:+ sep +:+ q) rest p
  end.

Fixpoint py_repr (v : pyval) : string :=
  match v with
  | PNone => "None"
  | PBool true => "True"
  | PBool false => "False"
  | PInt z => pretty z
  | PFloat f => float_repr f
  | PStr s => str_repr s
  | PList l => "[" +:+ join ", " (map py_repr l) +:+ "]"
  | PDict d =>
      "{" +:+ join ", " (map (fun kv => str_repr (fst kv) +:+ ": " +:+ py_repr (snd kv)) d) +:+ "}"
  end.

(** What an f-string puts in place of [{v}]. *)
Definition py_str (v : pyval) : string :=
  match v with
  | PStr s => s
  | _ => py_repr v
  end.

(** [with open(path, 'wb') as file: file.write(data)]. *)
Definition write_file (path : string) (data : list byte) : M unit :=
  fun w =>
    match fs path data with
    | Put => (Return tt, stored path data w)
    | OpenRaises e => (Raise e, w)
    | WriteRaises e reached => (Raise e, stored path (take reached data) w)
    end.

(** [requests.get(url, params=params)]. *)
Definition requests_get (u : string) (ps : list (string * pyval)) : M response :=
  fun w =>
    let req := {| url := u; params := ps |} in
    (http_get req, sent req w).

Definition download_satellite_image
    (api_key lat lon zoom : pyval) (img_file_name : string) : M unit :=
  let url := "https://maps.googleapis.com/maps/api/staticmap?center=" +:+ py_str lat
             +:+ "," +:+ py_str lon +:+ "&zoom=" +:+ py_str zoom
             +:+ "&size=600x600&maptype=satellite&key=" +:+ py_str api_key in
  response ← requests_get url [];
  if (status_code response =? 200)%Z then
    write_file img_file_name (content response);;
    print ("Image successfully downloaded: " +:+ img_file_name)
  else
    print "Failed to download the image. Check your API key and quota.".

(** The body of the [for] loop of [find_places]: one [place] dictionary
    per result, appended to [places]. *)
Fixpoint find_places_loop (results places : list pyval) : outcome (list pyval) :=
  match results with
  | [] => Return places
  | result :: rest =>
      name ← getitem_str result "name";
      geometry ← getitem_str result "geometry";
      location ← getitem_str geometry "location";
      lat ← getitem_str location "lat";
      geometry' ← getitem_str result "geometry";
      location' ← getitem_str geometry' "location";
      lng ← getitem_str location' "lng";
      let place := PDict [("name", name); ("latitude", lat);
                          ("longitude", lng); ("zoom", PInt 12)] in
      find_places_loop rest (places ++ [place])%list
  end.

(** [radius] defaults to 5000 in the source; callers here pass it. *)
Definition find_places (api_key query location radius : pyval) : M (list pyval) :=
  let url := "https://maps.googleapis.com/maps/api/place/textsearch/json" in
  let params := [("query", query); ("location", location);
                 ("radius", radius); ("key", api_key)] in
  response ← requests_get url params;
  body ← pure (json response);
  found ← pure (dict_get body "results" (PList []));
  results ← pure (py_iter found);
  pure (find_places_loop results []).

Definition get_lat_long (api_key address : pyval) : M (pyval * pyval) :=
  let url := "https://maps.googleapis.com/maps/api/geocode/json" in
  let params := [("address", address); ("key", api_key)] in
  response ← requests_get url params;
  result ← pure (json response);
  status ← pure (getitem_str result "status");
  if eq_str status "OK" then
    latitude ← pure (results ← getitem_str result "results";
                     first ← getitem_int results 0;
                     geometry ← getitem_str first "geometry";
                     location ← getitem_str geometry "location";
                     getitem_str location "lat");
    longitude ← pure (results ← getitem_str result "results";
                      first ← getitem_int results 0;
                      geometry ← getitem_str first "geometry";
                      location ← getitem_str geometry "location";
                      getitem_str location "lng");
    mret (latitude, longitude)
  else
    status' ← pure (getitem_str result "status");
    print ("Error finding location: " +:+ py_str status');;
    mret (PNone, PNone).

Definition download_image_as_bytes (api_key lat lon zoom : pyval) : M (option bytes_io) :=
  let url := "https://maps.googleapis.com/maps/api/staticmap?center=" +:+ py_str lat
             +:+ "," +:+ py_str lon +:+ "&zoom=" +:+ py_str zoom
             +:+ "&size=600x600&maptype=satellite&key=" +:+ py_str api_key in
  response ← requests_get url [];
  if (status_code response =? 200)%Z then
    mret (Some (BytesIO (content response)))
  else
    mret None.

(** *** Streamlit and PIL *)

Definition st_title (text : string) : M unit := show (Title text).
Definition st_write (text : string) : M unit := show (Write text).
Definition st_error (text : string) : M unit := show (Error text).

(** A text field returns what the user typed, or its initial [value]. *)
Definition st_text_input (ui : session) (label value : string) : M string :=
  let current := default value (typed_text ui label) in
  show (TextInput label current);;
  mret current.

(** A number field returns the number it holds, or its initial [value].
    The widget keeps what it holds between [min_value] and [max_value];
    the script never relies on it. *)
Definition st_number_input (ui : session) (label : string)
    (min_value max_value value step : Z) : M Z :=
  let current := default value (typed_number ui label) in
  show (NumberInput label min_value max_value current step);;
  mret current.

(** A select box returns the option at the position the user picked, the
    first option when nothing (or nothing that exists) was picked, and
    [None] when there are no options. *)
Definition st_selectbox (ui : session) (label : string) (options : list string)
    : M (option string) :=
  let wanted := default 0%nat (picked ui label) in
  let index := if (wanted <? length options)%nat then wanted else 0%nat in
  show (Selectbox label options index);;
  mret (options !! index).

(** [Image.open] reads the header of the stream and raises when it does
    not recognise the format. *)
Definition Image_open (stream : bytes_io) : M image :=
  match stream with
  | BytesIO buf =>
      if pil_identify buf then mret (ImageOf buf)
      else pure (Raise UnidentifiedImageError)
  end.

Definition st_image (img : image) (caption : string) : M unit :=
  show (Picture img caption).

(** The list comprehension that labels the places. *)
Fixpoint place_labels (places : list pyval) : outcome (list string) :=
  match places with
  | [] => Return []
  | place :: rest =>
      name ← getitem_str place "name";
      latitude ← getitem_str place "latitude";
      longitude ← getitem_str place "longitude";
      labels ← place_labels rest;
      Return ((py_str name +:+ " (" +:+ py_str latitude +:+ ", "
               +:+ py_str longitude +:+ ")") :: labels)
  end.

(** *** The page: the module-level code, run once per render pass *)

Definition app (ui : session) : M unit :=
  st_title "CampRecon";;
  api_key ← st_text_input ui "Enter your Google API Key" "";
  address ← st_text_input ui "Enter an address or location" "";
  zoom ← st_number_input ui "Zoom Level" 0 21 12 1;
  if truthy_str address && truthy_str api_key then
    '(latitude, longitude) ← get_lat_long (PStr api_key) (PStr address);
    if negb (is_none latitude) && negb (is_none longitude) then
      st_write ("Latitude: " +:+ py_str latitude +:+ ", Longitude: "
                +:+ py_str longitude);;
      query ← st_text_input ui "Enter search query for nearby places" "camp sites";
      if truthy_str query then
        places ← find_places (PStr api_key) (PStr query)
                   (PStr (py_str latitude +:+ "," +:+ py_str longitude)) (PInt 5000);
        if truthy_list places then
          place_options ← pure (place_labels places);
          selected_place ← st_selectbox ui "Select a place to view" place_options;
          match selected_place with
          | Some selected =>
              if truthy_str selected then
                selected_index ← pure (list_index selected place_options);
                chosen ← pure (getitem_int (PList places) (Z.of_nat selected_index));
                selected_lat ← pure (getitem_str chosen "latitude");
                chosen' ← pure (getitem_int (PList places) (Z.of_nat selected_index));
                selected_lon ← pure (getitem_str chosen' "longitude");
                image_bytes ← download_image_as_bytes (PStr api_key)
                                selected_lat selected_lon (PInt zoom);
                match image_bytes with
                | Some stream =>
                    img ← Image_open stream;
                    st_image img "Satellite Image"
                | None =>
                    st_error "Failed to download the image. Check your API key and quota."
                end
              else mret tt
          | None => mret tt
          end
        else
          st_write "No places found."
      else mret tt
    else
      st_write "Location not found."
  else
    st_write "Please enter a valid API key and address.".

(** *** Vocabulary of the statements *)

(** The request [get_lat_long] sends. *)
Definition geocode_request (api_key address : pyval) : request :=
  {| url := "https://maps.googleapis.com/maps/api/geocode/json";
     params := [("address", address); ("key", api_key)] |}.

(** The request [find_places] sends. *)
Definition places_request (api_key query location radius : pyval) : request :=
  {| url := "https://maps.googleapis.com/maps/api/place/textsearch/json";
     params := [("query", query); ("location", location);
                ("radius", radius); ("key", api_key)] |}.

(** The static-map request as the specification describes it: the
    endpoint, then the query parameters center, zoom, the fixed size
    600x600, the fixed map type satellite, and the key. *)
Definition query_string (args : list (string * string)) : string :=
  join "&" (map (fun kv => fst kv +:+ "=" +:+ snd kv) args).

Definition static_map_request (api_key lat lon zoom : pyval) : request :=
  {| url := "https://maps.googleapis.com/maps/api/staticmap?"
            +:+ query_string [("center", py_str lat +:+ "," +:+ py_str lon);
                              ("zoom", py_str zoom);
                              ("size", "600x600");
                              ("maptype", "satellite");
                              ("key", py_str api_key)];
     params := [] |}.

(** What the four input widgets hold in a session. *)
Definition api_key_field (ui : session) : string :=
  default "" (typed_text ui "Enter your Google API Key").
Definition address_field (ui : session) : string :=
  default "" (typed_text ui "Enter an address or location").
Definition zoom_field (ui : session) : Z :=
  default 12 (typed_number ui "Zoom Level").
Definition query_field (ui : session) : string :=
  default "camp sites" (typed_text ui "Enter search query for nearby places").

(** The part of the page that every render pass draws first. *)
Definition form (ui : session) : list element :=
  [Title "CampRecon";
   TextInput "Enter your Google API Key" (api_key_field ui);
   TextInput "Enter an address or location" (address_field ui);
   NumberInput "Zoom Level" 0 21 (zoom_field ui) 1].

(** A search result as the specification describes it: a name and the
    coordinates under [geometry.location]. *)
Definition entry : Type := pyval * pyval * pyval.

Definition describes (result : pyval) (e : entry) : Prop :=
  let '(name, lat, lng) := e in
  at_path [Key "name"] result = Some name
  /\ at_path [Key "geometry"; Key "location"; Key "lat"] result = Some lat
  /\ at_path [Key "geometry"; Key "location"; Key "lng"] result = Some lng.

(** The Place record of an entry, and the label the page gives it. *)
Definition place_of (e : entry) : pyval :=
  let '(name, lat, lng) := e in
  PDict [("name", name); ("latitude", lat); ("longitude", lng); ("zoom", PInt 12)].

Definition label_of (e : entry) : string :=
  let '(name, lat, lng) := e in
  py_str name +:+ " (" +:+ py_str lat +:+ ", " +:+ py_str lng +:+ ")".

(** A text without blank or opening parenthesis, as is the text Python
    prints for a number; an entry whose two coordinates print so. *)
Definition plain (s : string) : bool :=
  forallb (fun c => negb (Ascii.eqb c " ") && negb (Ascii.eqb c "("))
    (list_ascii_of_string s).

Definition plain_coordinates (e : entry) : Prop :=
  let '(name, lat, lng) := e in
  plain (py_str lat) = true /\ plain (py_str lng) = true.

(** The position the select box shows as chosen among [n] options. *)
Definition choice (ui : session) (n : nat) : nat :=
  let wanted := default 0%nat (picked ui "Select a place to view") in
  if (wanted <? n)%nat then wanted else 0%nat.

(** The world once the form is drawn, the address is geocoded to
    [(lat, lng)] and the places around it are searched. *)
Definition searched (ui : session) (lat lng : pyval) (w : world) : world :=
  sent (places_request (PStr (api_key_field ui)) (PStr (query_field ui))
          (PStr (py_str lat +:+ "," +:+ py_str lng)) (PInt 5000))
    (shown (TextInput "Enter search query for nearby places" (query_field ui))
       (shown (Write ("Latitude: " +:+ py_str lat +:+ ", Longitude: " +:+ py_str lng))
          (sent (geocode_request (PStr (api_key_field ui)) (PStr (address_field ui)))
             (shown (NumberInput "Zoom Level" 0 21 (zoom_field ui) 1)
                (shown (TextInput "Enter an address or location" (address_field ui))
                   (shown (TextInput "Enter your Google API Key" (api_key_field ui))
                      (shown (Title "CampRecon") w))))))).

(** The same world once the places are offered in the select box. *)
Definition offered (ui : session) (lat lng : pyval) (entries : list entry)
    (w : world) : world :=
  shown (Selectbox "Select a place to view" (map label_of entries)
           (choice ui (length entries)))
    (searched ui lat lng w).

(** ** Running the monad *)

Lemma run_bind {A B : Type} (m : M A) (f : A -> M B) (w : world) :
  (m ≫= f) w = match m w with
               | (Return a, w') => f a w'
               | (Raise e, w') => (Raise e, w')
               end.
Proof. reflexivity. Qed.

Lemma bind_return {A B : Type} (a : A) (f : A -> outcome B) :
  (Return a ≫= f) = f a.
Proof. reflexivity. Qed.

Lemma bind_raise {A B : Type} (e : exn) (f : A -> outcome B) :
  (Raise e ≫= f) = Raise e.
Proof. reflexivity. Qed.

Lemma run_pure {A : Type} (o : outcome A) (w : world) : pure o w = (o, w).
Proof. reflexivity. Qed.

Lemma run_requests_get (u : string) (ps : list (string * pyval)) (w : world) :
  requests_get u ps w = (http_get (mk_request u ps), sent (mk_request u ps) w).
Proof. reflexivity. Qed.

(** ** Paths and subscripts agree *)

Lemma at_path_key (k : string) (p : list selector) (v x : pyval) :
  at_path (Key k :: p) v = Some x ->
  exists y, getitem_str v k = Return y /\ at_path p y = Some x.
Proof.
  destruct v as [| | | | |l|d]; simpl; try discriminate.
  destruct (dict_lookup k d) as [y|]; [|discriminate].
  intros Hy. exists y. split; [reflexivity|exact Hy].
Qed.

Lemma seq_index_in_range (len i : nat) :
  (i < len)%nat -> seq_index len (Z.of_nat i) = Some i.
Proof.
  intros Hi. unfold seq_index.
  replace (0 <=? Z.of_nat i)%Z with true by (symmetry; apply Z.leb_le; lia).
  replace (Z.of_nat i <? Z.of_nat len)%Z with true by (symmetry; apply Z.ltb_lt; lia).
  simpl. rewrite Nat2Z.id. reflexivity.
Qed.

Lemma getitem_int_lookup (l : list pyval) (i : nat) (x : pyval) :
  l !! i = Some x -> getitem_int (PList l) (Z.of_nat i) = Return x.
Proof.
  intros Hx. unfold getitem_int.
  rewrite seq_index_in_range by (eapply lookup_lt_Some; exact Hx).
  rewrite Hx. reflexivity.
Qed.

Lemma at_path_idx (i : nat) (p : list selector) (v x : pyval) :
  at_path (Idx i :: p) v = Some x ->
  exists y, getitem_int v (Z.of_nat i) = Return y /\ at_path p y = Some x.
Proof.
  destruct v as [| | | | |l|d]; simpl; try discriminate.
  destruct (l !! i) as [y|] eqn:Hy; [|discriminate].
  intros Hx. exists y. split; [|exact Hx].
  apply getitem_int_lookup. exact Hy.
Qed.

Lemma at_path_nil (v x : pyval) : at_path [] v = Some x -> v = x.
Proof. simpl. congruence. Qed.

(** Follow a path hypothesis one selector at a time, rewriting the
    subscripts of the code as they are met. *)
Ltac follow H :=
  repeat
    (first
       [ apply at_path_nil in H; subst
       | let y := fresh "y" in
         let Hy := fresh "Hy" in
         apply at_path_key in H as (y & Hy & H)
       | let y := fresh "y" in
         let Hy := fresh "Hy" in
         apply at_path_idx in H as (y & Hy & H) ]).

(** Two readings of the same subscript give the same value. *)
Ltac unify_reads :=
  repeat match goal with
         | H1 : ?a = Return ?x, H2 : ?a = Return ?y |- _ =>
             assert (y = x) by congruence; subst y; clear H2
         end.

(** Replace the subscripts whose value is known. *)
Ltac subscripts :=
  repeat match goal with
         | H : getitem_str _ _ = Return _ |- _ => rewrite H
         | H : getitem_int _ _ = Return _ |- _ => rewrite H
         | |- _ => rewrite bind_return
         end.

(** In a hypothesis saying that a chain of subscripts returned, name the
    value of each subscript; a subscript that raised contradicts it. *)
Ltac reads_in H :=
  repeat
    (rewrite ?bind_return in H;
     match type of H with
     | context [getitem_str ?v ?k] =>
         first
           [ match goal with
             | E : getitem_str v k = _ |- _ => rewrite E in H
             end
           | let E := fresh "E" in
             destruct (getitem_str v k) eqn:E;
             [| rewrite bind_raise in H; discriminate H] ]
     end).

(** ** Geocoder *)

Lemma eq_str_true (v : pyval) (s : string) : eq_str v s = true <-> v = PStr s.
Proof.
  destruct v; simpl; try (split; [discriminate | congruence]).
  rewrite String.eqb_eq. split; congruence.
Qed.

Lemma eq_str_false (v : pyval) (s : string) : v <> PStr s -> eq_str v s = false.
Proof.
  intros Hv. destruct (eq_str v s) eqn:E; [|reflexivity].
  apply eq_str_true in E. contradiction.
Qed.

Lemma get_lat_long_found (api_key address : pyval) (resp : response)
    (payload lat lng : pyval) (w : world) :
  http_get (geocode_request api_key address) = Return resp ->
  json resp = Return payload ->
  at_path [Key "status"] payload = Some (PStr "OK") ->
  at_path [Key "results"; Idx 0; Key "geometry"; Key "location"; Key "lat"] payload
    = Some lat ->
  at_path [Key "results"; Idx 0; Key "geometry"; Key "location"; Key "lng"] payload
    = Some lng ->
  get_lat_long api_key address w
    = (Return (lat, lng), sent (geocode_request api_key address) w).
Proof.
  intros Hget Hjson Hstatus Hlat Hlng.
  unfold get_lat_long. cbv zeta.
  rewrite run_bind, run_requests_get. fold (geocode_request api_key address).
  rewrite Hget, run_bind, run_pure, Hjson.
  follow Hstatus. follow Hlat. follow Hlng.
  change (Z.of_nat 0) with 0%Z in *. unify_reads.
  rewrite run_bind, run_pure. subscripts.
  change (eq_str (PStr "OK") "OK") with true. cbv iota.
  rewrite !run_bind, !run_pure. subscripts.
  reflexivity.
Qed.

Lemma get_lat_long_not_found (api_key address : pyval) (resp : response)
    (payload status : pyval) (w : world) :
  http_get (geocode_request api_key address) = Return resp ->
  json resp = Return payload ->
  at_path [Key "status"] payload = Some status ->
  status <> PStr "OK" ->
  get_lat_long api_key address w
    = (Return (PNone, PNone),
       printed ("Error finding location: " +:+ py_str status)
         (sent (geocode_request api_key address) w)).
Proof.
  intros Hget Hjson Hstatus Hne.
  unfold get_lat_long. cbv zeta.
  rewrite run_bind, run_requests_get. fold (geocode_request api_key address).
  rewrite Hget, run_bind, run_pure, Hjson.
  follow Hstatus.
  rewrite run_bind, run_pure. subscripts.
  rewrite (eq_str_false _ _ Hne).
  rewrite run_bind, run_pure. reflexivity.
Qed.

(** C1: when the payload of the geocoding response has status "OK",
    [get_lat_long] returns exactly the pair found in the payload at
    [results[0].geometry.location.lat] and [results[0].geometry.location.lng]. *)
Theorem resolve_returns_first_location (api_key address : pyval) (resp : response)
    (payload lat lng : pyval) (w : world) :
  http_get (geocode_request api_key address) = Return resp ->
  json resp = Return payload ->
  at_path [Key "status"] payload = Some (PStr "OK") ->
  at_path [Key "results"; Idx 0; Key "geometry"; Key "location"; Key "lat"] payload
    = Some lat ->
  at_path [Key "results"; Idx 0; Key "geometry"; Key "location"; Key "lng"] payload
    = Some lng ->
  fst (get_lat_long api_key address w) = Return (lat, lng).
Proof.
  intros Hget Hjson Hstatus Hlat Hlng.
  rewrite (get_lat_long_found _ _ _ _ _ _ w Hget Hjson Hstatus Hlat Hlng).
  reflexivity.
Qed.

(** C3: when the payload of the geocoding response has a status other
    than "OK", [get_lat_long] raises nothing and returns [(None, None)];
    the status only shows in the line printed, so two failed lookups
    return the same value whatever their statuses. *)
Theorem resolve_not_found (api_key address : pyval) (resp : response)
    (payload status : pyval) (w : world) :
  http_get (geocode_request api_key address) = Return resp ->
  json resp = Return payload ->
  at_path [Key "status"] payload = Some status ->
  status <> PStr "OK" ->
  get_lat_long api_key address w
  = (Return (PNone, PNone),
     printed ("Error finding location: " +:+ py_str status)
       (sent (geocode_request api_key address) w))
  /\ forall api_key' address' resp' payload' status' w',
      http_get (geocode_request api_key' address') = Return resp' ->
      json resp' = Return payload' ->
      at_path [Key "status"] payload' = Some status' ->
      status' <> PStr "OK" ->
      fst (get_lat_long api_key' address' w') = fst (get_lat_long api_key address w).
Proof.
  intros Hget Hjson Hstatus Hne.
  rewrite (get_lat_long_not_found _ _ _ _ _ w Hget Hjson Hstatus Hne).
  split; [reflexivity|].
  intros api_key' address' resp' payload' status' w' Hget' Hjson' Hstatus' Hne'.
  rewrite (get_lat_long_not_found _ _ _ _ _ w' Hget' Hjson' Hstatus' Hne').
  reflexivity.
Qed.

(** ** ImageryFetcher *)

Lemma append_assoc (a b c : string) : (a +:+ b) +:+ c = a +:+ (b +:+ c).
Proof.
  induction a as [|ch a IH]; [reflexivity|].
  change (String ch ((a +:+ b) +:+ c) = String ch (a +:+ (b +:+ c))).
  f_equal. exact IH.
Qed.

(** The f-string of both download functions spells out the request of
    the specification. *)
Lemma static_map_url (api_key lat lon zoom : pyval) :
  "https://maps.googleapis.com/maps/api/staticmap?center=" +:+ py_str lat
    +:+ "," +:+ py_str lon +:+ "&zoom=" +:+ py_str zoom
    +:+ "&size=600x600&maptype=satellite&key=" +:+ py_str api_key
  = url (static_map_request api_key lat lon zoom).
Proof.
  unfold static_map_request, query_string, join. simpl.
  rewrite !append_assoc. reflexivity.
Qed.

Lemma download_image_as_bytes_run (api_key lat lon zoom : pyval) (w : world) :
  download_image_as_bytes api_key lat lon zoom w
  = match http_get (static_map_request api_key lat lon zoom) with
    | Return resp =>
        (Return (if (status_code resp =? 200)%Z
                 then Some (BytesIO (content resp)) else None),
         sent (static_map_request api_key lat lon zoom) w)
    | Raise e => (Raise e, sent (static_map_request api_key lat lon zoom) w)
    end.
Proof.
  unfold download_image_as_bytes. cbv zeta.
  rewrite static_map_url, run_bind, run_requests_get.
  change (mk_request (url (static_map_request api_key lat lon zoom)) [])
    with (static_map_request api_key lat lon zoom).
  destruct (http_get (static_map_request api_key lat lon zoom)) as [resp|e];
    [|reflexivity].
  destruct (status_code resp =? 200)%Z; reflexivity.
Qed.

Lemma download_satellite_image_run (api_key lat lon zoom : pyval)
    (img_file_name : string) (w : world) :
  download_satellite_image api_key lat lon zoom img_file_name w
  = match http_get (static_map_request api_key lat lon zoom) with
    | Return resp =>
        if (status_code resp =? 200)%Z
        then
          match fs img_file_name (content resp) with
          | Put =>
              (Return tt,
               printed ("Image successfully downloaded: " +:+ img_file_name)
                 (stored img_file_name (content resp)
                    (sent (static_map_request api_key lat lon zoom) w)))
          | OpenRaises e =>
              (Raise e, sent (static_map_request api_key lat lon zoom) w)
          | WriteRaises e reached =>
              (Raise e,
               stored img_file_name (take reached (content resp))
                 (sent (static_map_request api_key lat lon zoom) w))
          end
        else
          (Return tt,
           printed "Failed to download the image. Check your API key and quota."
             (sent (static_map_request api_key lat lon zoom) w))
    | Raise e => (Raise e, sent (static_map_request api_key lat lon zoom) w)
    end.
Proof.
  unfold download_satellite_image. cbv zeta.
  rewrite static_map_url, run_bind, run_requests_get.
  change (mk_request (url (static_map_request api_key lat lon zoom)) [])
    with (static_map_request api_key lat lon zoom).
  destruct (http_get (static_map_request api_key lat lon zoom)) as [resp|e];
    [|reflexivity].
  destruct (status_code resp =? 200)%Z; [|reflexivity].
  rewrite run_bind. unfold write_file.
  destruct (fs img_file_name (content resp)); reflexivity.
Qed.

(** C2, as the code has it: [download_image_as_bytes] returns the bytes
    exactly when the status of the imagery response is 200;
    [download_satellite_image] writes them to the path and prints the
    success line exactly when the status is 200 and the file can be
    opened and written.  With status 200, an [open] that raises leaves
    the files and the output as they were, and a write that raises
    leaves in the file the bytes that reached it; the exception escapes
    in both cases.  With any other status the first function prints the
    failure line and leaves the files alone, the second returns [None]. *)
Theorem download_iff_status_200 (api_key lat lon zoom : pyval)
    (img_file_name : string) (resp : response) (w : world) :
  http_get (static_map_request api_key lat lon zoom) = Return resp ->
  let to_file := download_satellite_image api_key lat lon zoom img_file_name w in
  let to_memory := download_image_as_bytes api_key lat lon zoom w in
  let put := fs img_file_name (content resp) in
  let success := "Image successfully downloaded: " +:+ img_file_name in
  (status_code resp = 200 -> put = Put ->
     fst to_file = Return tt
     /\ files (snd to_file) = <[img_file_name := content resp]> (files w)
     /\ stdout (snd to_file) = (stdout w ++ [success])%list)
  /\ (status_code resp = 200 -> forall e, put = OpenRaises e ->
     fst to_file = Raise e
     /\ files (snd to_file) = files w
     /\ stdout (snd to_file) = stdout w)
  /\ (status_code resp = 200 -> forall e reached, put = WriteRaises e reached ->
     fst to_file = Raise e
     /\ files (snd to_file)
        = <[img_file_name := take reached (content resp)]> (files w)
     /\ stdout (snd to_file) = stdout w)
  /\ (status_code resp <> 200 ->
     fst to_file = Return tt
     /\ files (snd to_file) = files w
     /\ stdout (snd to_file)
        = (stdout w
           ++ ["Failed to download the image. Check your API key and quota."])%list
     /\ fst to_memory = Return None)
  /\ (fst to_file = Return tt /\ stdout (snd to_file) = (stdout w ++ [success])%list
      <-> status_code resp = 200 /\ put = Put)
  /\ (files w !! img_file_name <> Some (content resp) ->
      files (snd to_file) !! img_file_name = Some (content resp) ->
      status_code resp = 200)
  /\ (status_code resp = 200 -> fst to_memory = Return (Some (BytesIO (content resp))))
  /\ ((exists stream, fst to_memory = Return (Some stream)) <-> status_code resp = 200)
  /\ files (snd to_memory) = files w.
Proof.
  intros Hget to_file to_memory put success. subst to_file to_memory put success.
  rewrite download_satellite_image_run, download_image_as_bytes_run, Hget.
  destruct (Z.eqb_spec (status_code resp) 200) as [H200|Hnot].
  - destruct (fs img_file_name (content resp)) as [|e|e reached]; simpl;
      repeat split; try reflexivity; try congruence; try discriminate;
      try (intros; discriminate); try (intros [? ?]; discriminate);
      try (intros [? ?]; congruence).
    all: try (exists (BytesIO (content resp)); reflexivity).
    all: try (intros e' Heq; injection Heq as <-; repeat split; reflexivity).
    all: try (intros e' n Heq; injection Heq as <- <-; repeat split; reflexivity).
    all: match goal with
         | H : _ /\ _ |- _ => destruct H; discriminate
         end.
  - simpl. repeat split; try reflexivity; try congruence;
      try (intros; congruence); try (intros [? ?]; congruence).
    all: match goal with
         | H : _ /\ (_ ++ [_])%list = _ |- _ =>
             destruct H as [_ Hout]; apply app_inv_head in Hout;
             injection Hout as Hout; discriminate Hout
         | H : status_code _ = 200 /\ _ |- _ => destruct H; contradiction
         end.
Qed.

(** C8: both download functions send the same request, the one the
    specification describes: the static-map endpoint with the given
    center, zoom and key, size 600x600 and map type satellite. *)
Theorem downloads_send_same_request (api_key lat lon zoom : pyval)
    (img_file_name : string) (w : world) :
  requests_sent (snd (download_satellite_image api_key lat lon zoom img_file_name w))
  = (requests_sent w ++ [static_map_request api_key lat lon zoom])%list
  /\ requests_sent (snd (download_image_as_bytes api_key lat lon zoom w))
     = (requests_sent w ++ [static_map_request api_key lat lon zoom])%list
  /\ url (static_map_request api_key lat lon zoom)
     = "https://maps.googleapis.com/maps/api/staticmap?center=" +:+ py_str lat
       +:+ "," +:+ py_str lon +:+ "&zoom=" +:+ py_str zoom
       +:+ "&size=600x600&maptype=satellite&key=" +:+ py_str api_key.
Proof.
  rewrite download_satellite_image_run, download_image_as_bytes_run.
  split; [|split].
  - destruct (http_get _) as [resp|e]; [|reflexivity].
    destruct (status_code resp =? 200)%Z; [|reflexivity].
    destruct (fs img_file_name (content resp)); reflexivity.
  - destruct (http_get _) as [resp|e]; reflexivity.
  - symmetry. apply static_map_url.
Qed.

(** ** PlaceFinder *)

Lemma dict_get_at_path (body found default : pyval) (k : string) :
  at_path [Key k] body = Some found -> dict_get body k default = Return found.
Proof.
  destruct body as [| | | | |l|d]; simpl; try discriminate.
  destruct (dict_lookup k d); congruence.
Qed.


Lemma find_places_run (api_key query location radius : pyval) (w : world) :
  find_places api_key query location radius w
  = (resp ← http_get (places_request api_key query location radius);
     body ← json resp;
     found ← dict_get body "results" (PList []);
     results ← py_iter found;
     find_places_loop results [],
     sent (places_request api_key query location radius) w).
Proof.
  unfold find_places. cbv zeta.
  rewrite run_bind, run_requests_get.
  fold (places_request api_key query location radius).
  destruct (http_get (places_request api_key query location radius)) as [resp|e];
    [|reflexivity].
  rewrite bind_return, run_bind, run_pure.
  destruct (json resp) as [body|e]; [|reflexivity].
  rewrite bind_return, run_bind, run_pure.
  destruct (dict_get body "results" (PList [])) as [found|e]; [|reflexivity].
  rewrite bind_return, run_bind, run_pure.
  destruct (py_iter found) as [results|e]; reflexivity.
Qed.

(** Invariant of the loop: every place appended has zoom 12. *)
Lemma find_places_loop_zoom (results acc places : list pyval) :
  find_places_loop results acc = Return places ->
  Forall (fun place => at_path [Key "zoom"] place = Some (PInt 12)) acc ->
  Forall (fun place => at_path [Key "zoom"] place = Some (PInt 12)) places.
Proof.
  revert acc. induction results as [|result rest IH]; intros acc Hloop Hacc.
  - simpl in Hloop. injection Hloop as <-. exact Hacc.
  - simpl in Hloop. reads_in Hloop.
    apply IH in Hloop; [exact Hloop|].
    apply Forall_app. split; [exact Hacc|].
    constructor; [reflexivity | constructor].
Qed.

(** On results that have the expected shape the loop appends one Place
    per result, in order. *)
Lemma find_places_loop_described (results : list pyval) (entries : list entry) :
  Forall2 describes results entries ->
  forall acc, find_places_loop results acc = Return (acc ++ map place_of entries)%list.
Proof.
  induction 1 as [|result [[name lat] lng] results entries (Hn & Hla & Hlo) _ IH];
    intros acc.
  - simpl. rewrite app_nil_r. reflexivity.
  - follow Hn. follow Hla. follow Hlo. unify_reads.
    simpl find_places_loop. subscripts.
    rewrite IH, <- app_assoc. reflexivity.
Qed.

(** C4: every Place that [find_places] returns has its zoom field equal
    to 12, whatever the key, the query, the location, the radius and the
    response. *)
Theorem search_places_have_zoom_12 (api_key query location radius : pyval)
    (w w' : world) (places : list pyval) (place : pyval) :
  find_places api_key query location radius w = (Return places, w') ->
  place ∈ places ->
  at_path [Key "zoom"] place = Some (PInt 12).
Proof.
  rewrite find_places_run. intros Hrun Hin.
  injection Hrun as Hplaces _.
  destruct (http_get _) as [resp|e]; [|discriminate Hplaces].
  rewrite bind_return in Hplaces.
  destruct (json resp) as [body|e]; [|discriminate Hplaces].
  rewrite bind_return in Hplaces.
  destruct (dict_get body "results" (PList [])) as [found|e]; [|discriminate Hplaces].
  rewrite bind_return in Hplaces.
  destruct (py_iter found) as [results|e]; [|discriminate Hplaces].
  rewrite bind_return in Hplaces.
  apply find_places_loop_zoom in Hplaces; [|constructor].
  rewrite Forall_forall in Hplaces. exact (Hplaces place Hin).
Qed.

(** C9: when the JSON object of the search response has no "results" key,
    [find_places] raises nothing and returns the empty list, the very
    value it returns for a response whose "results" array is empty. *)
Theorem search_without_results_key (api_key query location radius : pyval)
    (resp : response) (d : list (string * pyval)) (w : world) :
  http_get (places_request api_key query location radius) = Return resp ->
  json resp = Return (PDict d) ->
  dict_lookup "results" d = None ->
  find_places api_key query location radius w
  = (Return [], sent (places_request api_key query location radius) w)
  /\ forall api_key' query' location' radius' resp' payload' w',
      http_get (places_request api_key' query' location' radius') = Return resp' ->
      json resp' = Return payload' ->
      at_path [Key "results"] payload' = Some (PList []) ->
      fst (find_places api_key' query' location' radius' w')
      = fst (find_places api_key query location radius w).
Proof.
  intros Hget Hjson Hmissing.
  assert (Hrun : find_places api_key query location radius w
                 = (Return [], sent (places_request api_key query location radius) w)).
  { rewrite find_places_run, Hget, bind_return, Hjson, bind_return.
    unfold dict_get. rewrite Hmissing. reflexivity. }
  split; [exact Hrun|].
  intros api_key' query' location' radius' resp' payload' w' Hget' Hjson' Hempty.
  rewrite Hrun, find_places_run, Hget', bind_return, Hjson', bind_return.
  rewrite (dict_get_at_path _ _ _ _ Hempty). reflexivity.
Qed.

(** ** InteractionController *)

Lemma run_show (e : element) (w : world) : show e w = (Return tt, shown e w).
Proof. reflexivity. Qed.

Lemma run_st_text_input (ui : session) (label value : string) (w : world) :
  st_text_input ui label value w
  = (Return (default value (typed_text ui label)),
     shown (TextInput label (default value (typed_text ui label))) w).
Proof. reflexivity. Qed.

Lemma run_st_number_input (ui : session) (label : string)
    (min_value max_value value step : Z) (w : world) :
  st_number_input ui label min_value max_value value step w
  = (Return (default value (typed_number ui label)),
     shown (NumberInput label min_value max_value
              (default value (typed_number ui label)) step) w).
Proof. reflexivity. Qed.

Lemma truthy_str_false (s : string) : truthy_str s = false <-> s = "".
Proof. destruct s; simpl; split; congruence. Qed.

Lemma truthy_str_true (s : string) : truthy_str s = true <-> s <> "".
Proof. destruct s; simpl; split; congruence. Qed.

(** Every render pass starts by drawing the form; the rest of the page
    depends on what the fields hold. *)
Ltac draw_form ui :=
  unfold app, st_title, st_write, st_error, st_image;
  rewrite run_bind, run_show;
  rewrite run_bind, run_st_text_input; fold (api_key_field ui);
  rewrite run_bind, run_st_text_input; fold (address_field ui);
  rewrite run_bind, run_st_number_input; fold (zoom_field ui).

Lemma app_missing_input (ui : session) (w : world) :
  api_key_field ui = "" \/ address_field ui = "" ->
  app ui w
  = (Return tt,
     shown (Write "Please enter a valid API key and address.")
       (shown (NumberInput "Zoom Level" 0 21 (zoom_field ui) 1)
          (shown (TextInput "Enter an address or location" (address_field ui))
             (shown (TextInput "Enter your Google API Key" (api_key_field ui))
                (shown (Title "CampRecon") w))))).
Proof.
  intros Hempty. draw_form ui.
  replace (truthy_str (address_field ui) && truthy_str (api_key_field ui))
    with false; [reflexivity|].
  symmetry. apply andb_false_iff.
  destruct Hempty as [Hkey|Haddr]; [right | left]; apply truthy_str_false; assumption.
Qed.

(** C7: when the key field or the address field is empty, the page
    draws the form, writes the prompt and stops: no request is sent to
    the geocoding, search or imagery endpoint in that pass. *)
Theorem missing_input_stops (ui : session) (w : world) :
  api_key_field ui = "" \/ address_field ui = "" ->
  fst (app ui w) = Return tt
  /\ page (snd (app ui w))
     = (page w ++ form ui ++ [Write "Please enter a valid API key and address."])%list
  /\ requests_sent (snd (app ui w)) = requests_sent w
  /\ stdout (snd (app ui w)) = stdout w
  /\ files (snd (app ui w)) = files w.
Proof.
  intros Hempty. rewrite (app_missing_input ui w Hempty). simpl.
  repeat split. rewrite <- !app_assoc. reflexivity.
Qed.

Lemma run_st_selectbox (ui : session) (label : string) (options : list string)
    (w : world) :
  st_selectbox ui label options w
  = (let wanted := default 0%nat (picked ui label) in
     let index := if (wanted <? length options)%nat then wanted else 0%nat in
     (Return (options !! index), shown (Selectbox label options index) w)).
Proof. reflexivity. Qed.

Lemma place_labels_described (entries : list entry) :
  place_labels (map place_of entries) = Return (map label_of entries).
Proof.
  induction entries as [|[[name lat] lng] entries IH]; [reflexivity|].
  simpl map. simpl place_labels. rewrite IH. reflexivity.
Qed.

Lemma label_of_truthy (e : entry) : truthy_str (label_of e) = true.
Proof.
  destruct e as [[name lat] lng]. unfold label_of.
  destruct (py_str name) as [|c rest]; reflexivity.
Qed.

(** [index] finds the first position that holds the string. *)
Lemma list_index_first (labels : list string) (s : string) (j : nat) :
  labels !! j = Some s ->
  exists i, list_index s labels = Return i
            /\ labels !! i = Some s
            /\ (i <= j)%nat
            /\ forall k, (k < i)%nat -> labels !! k <> Some s.
Proof.
  revert j. induction labels as [|y labels IH]; intros j Hj; [discriminate|].
  simpl list_index. destruct (String.eqb y s) eqn:Hys.
  - apply String.eqb_eq in Hys. subst y.
    exists 0%nat. repeat split; [lia | intros k Hk; lia].
  - apply String.eqb_neq in Hys.
    destruct j as [|j]; [simpl in Hj; congruence|].
    destruct (IH j Hj) as (i & Hidx & Hi & Hle & Hfirst).
    exists (S i). rewrite Hidx. repeat split; [exact Hi | lia |].
    intros [|k] Hk; simpl; [congruence | apply Hfirst; lia].
Qed.

(** A position is determined by being the first to hold the string. *)
Lemma first_position_unique (labels : list string) (s : string) (i i' : nat) :
  labels !! i = Some s -> (forall k, (k < i)%nat -> labels !! k <> Some s) ->
  labels !! i' = Some s -> (forall k, (k < i')%nat -> labels !! k <> Some s) ->
  i = i'.
Proof.
  intros Hi Hfirst Hi' Hfirst'.
  destruct (lt_eq_lt_dec i i') as [[Hlt|Heq]|Hgt]; [|exact Heq|].
  - exfalso. exact (Hfirst' i Hlt Hi).
  - exfalso. exact (Hfirst i' Hgt Hi').
Qed.

Lemma is_none_false (v : pyval) : v <> PNone -> is_none v = false.
Proof. destruct v; simpl; congruence. Qed.

Lemma lookup_map {A B : Type} (f : A -> B) (l : list A) (i : nat) (x : A) :
  l !! i = Some x -> map f l !! i = Some (f x).
Proof.
  revert i. induction l as [|a l IH]; intros [|i] Hx; try discriminate.
  - injection Hx as ->. reflexivity.
  - exact (IH i Hx).
Qed.

Lemma lookup_map_inv {A B : Type} (f : A -> B) (l : list A) (i : nat) (y : B) :
  map f l !! i = Some y -> exists x, l !! i = Some x /\ f x = y.
Proof.
  revert i. induction l as [|a l IH]; intros [|i] Hy; try discriminate.
  - injection Hy as <-. exists a. split; reflexivity.
  - exact (IH i Hy).
Qed.

Lemma truthy_list_map {A B : Type} (f : A -> B) (l : list A) (i : nat) (x : A) :
  l !! i = Some x -> truthy_list (map f l) = true.
Proof. destruct l; [discriminate | reflexivity]. Qed.

(** *** Labels determine the text of plain coordinates *)

Lemma list_ascii_of_append (a b : string) :
  list_ascii_of_string (a +:+ b)
  = (list_ascii_of_string a ++ list_ascii_of_string b)%list.
Proof.
  induction a as [|c a IH]; [reflexivity|].
  change (c :: list_ascii_of_string (a +:+ b)
          = c :: (list_ascii_of_string a ++ list_ascii_of_string b)%list).
  rewrite IH. reflexivity.
Qed.

Lemma list_ascii_of_string_inj (a b : string) :
  list_ascii_of_string a = list_ascii_of_string b -> a = b.
Proof.
  intros Hab.
  rewrite <- (string_of_list_ascii_of_string a), <- (string_of_list_ascii_of_string b).
  rewrite Hab. reflexivity.
Qed.

(** Two lists cut at the first occurrence of [c] agree part by part. *)
Lemma split_at_first (c : ascii) (x y r r' : list ascii) :
  ~ In c x -> ~ In c y -> (x ++ c :: r = y ++ c :: r')%list -> x = y /\ r = r'.
Proof.
  revert y. induction x as [|a x IH]; intros [|b y] Hx Hy Heq; simpl in *.
  - injection Heq as ->. split; reflexivity.
  - injection Heq as <- _. exfalso. apply Hy. left. reflexivity.
  - injection Heq as -> _. exfalso. apply Hx. left. reflexivity.
  - injection Heq as -> Heq.
    destruct (IH y) as [-> ->]; [tauto | tauto | exact Heq |].
    split; reflexivity.
Qed.

Lemma plain_absent (s : string) (c : ascii) :
  plain s = true -> c = " "%char \/ c = "("%char ->
  ~ In c (rev (list_ascii_of_string s)).
Proof.
  unfold plain. rewrite forallb_forall. intros Hplain Hc Hin.
  apply in_rev in Hin. specialize (Hplain c Hin).
  destruct Hc as [-> | ->]; discriminate Hplain.
Qed.

Lemma label_of_plain (e e' : entry) :
  plain_coordinates e -> plain_coordinates e' -> label_of e = label_of e' ->
  py_str (snd (fst e)) = py_str (snd (fst e')) /\ py_str (snd e) = py_str (snd e').
Proof.
  destruct e as [[name lat] lng], e' as [[name' lat'] lng'].
  intros [Hlat Hlng] [Hlat' Hlng'] Hlabel. simpl fst. simpl snd.
  apply (f_equal list_ascii_of_string) in Hlabel. unfold label_of in Hlabel.
  rewrite !list_ascii_of_append in Hlabel.
  apply (f_equal (@rev ascii)) in Hlabel.
  rewrite !rev_app_distr in Hlabel. simpl in Hlabel.
  rewrite <- !app_assoc in Hlabel. simpl in Hlabel.
  injection Hlabel as Hlabel.
  apply split_at_first in Hlabel as [Hlng_eq Hlabel];
    [| apply plain_absent; [assumption | left; reflexivity] ..].
  injection Hlabel as Hlabel.
  apply split_at_first in Hlabel as [Hlat_eq _];
    [| apply plain_absent; [assumption | right; reflexivity] ..].
  split; apply list_ascii_of_string_inj, rev_inj; assumption.
Qed.

Lemma static_map_request_text (api_key lat lon lat' lon' zoom : pyval) :
  py_str lat = py_str lat' -> py_str lon = py_str lon' ->
  static_map_request api_key lat lon zoom = static_map_request api_key lat' lon' zoom.
Proof. intros Hlat Hlon. unfold static_map_request. rewrite Hlat, Hlon. reflexivity. Qed.

Section Visit.
(** One render pass in which both fields are filled, the geocoder
    finds the address at [(lat, lng)] and the place search answers
    with [results], whose shape [entries] describes. *)
Variable ui : session.
Variables gresp presp : response.
Variables gpayload ppayload lat lng : pyval.
Variable results : list pyval.
Variable entries : list entry.

Hypothesis Hkey : api_key_field ui <> "".
Hypothesis Haddress : address_field ui <> "".
Hypothesis Hgeo :
  http_get (geocode_request (PStr (api_key_field ui)) (PStr (address_field ui)))
  = Return gresp.
Hypothesis Hgjson : json gresp = Return gpayload.
Hypothesis Hstatus : at_path [Key "status"] gpayload = Some (PStr "OK").
Hypothesis Hlat :
  at_path [Key "results"; Idx 0; Key "geometry"; Key "location"; Key "lat"] gpayload
  = Some lat.
Hypothesis Hlng :
  at_path [Key "results"; Idx 0; Key "geometry"; Key "location"; Key "lng"] gpayload
  = Some lng.
Hypothesis Hlat_some : lat <> PNone.
Hypothesis Hlng_some : lng <> PNone.
Hypothesis Hquery : query_field ui <> "".
Hypothesis Hsearch :
  http_get (places_request (PStr (api_key_field ui)) (PStr (query_field ui))
              (PStr (py_str lat +:+ "," +:+ py_str lng)) (PInt 5000))
  = Return presp.
Hypothesis Hpjson : json presp = Return ppayload.
Hypothesis Hresults : at_path [Key "results"] ppayload = Some (PList results).
Hypothesis Hentries : Forall2 describes results entries.

(** Run the page down to the test on [places]. *)
Ltac search_places :=
  draw_form ui;
  rewrite (proj2 (truthy_str_true _) Haddress), (proj2 (truthy_str_true _) Hkey);
  change (true && true) with true; cbv iota;
  rewrite run_bind, (get_lat_long_found _ _ _ _ _ _ _ Hgeo Hgjson Hstatus Hlat Hlng);
  rewrite (is_none_false _ Hlat_some), (is_none_false _ Hlng_some);
  change (negb false && negb false) with true; cbv iota;
  rewrite run_bind, run_show;
  rewrite run_bind, run_st_text_input; fold (query_field ui);
  rewrite (proj2 (truthy_str_true _) Hquery);
  rewrite run_bind, find_places_run, Hsearch, bind_return, Hpjson, bind_return;
  rewrite (dict_get_at_path _ _ _ _ Hresults), bind_return;
  change (py_iter (PList results)) with (Return results);
  rewrite bind_return.

Lemma app_no_places (w : world) :
  results = [] ->
  app ui w = (Return tt, shown (Write "No places found.") (searched ui lat lng w)).
Proof.
  intros Hnone. search_places. rewrite Hnone. reflexivity.
Qed.

(** The pass in which the select box shows the entry [shown_entry] as
    chosen, [first] being the first entry of the list that carries the
    same label: the image is fetched for [first]. *)
Lemma app_selection (w : world) (shown_entry : entry) (i : nat)
    (name first_lat first_lng : pyval) :
  entries !! choice ui (length entries) = Some shown_entry ->
  entries !! i = Some (name, first_lat, first_lng) ->
  label_of (name, first_lat, first_lng) = label_of shown_entry ->
  (forall k e, (k < i)%nat -> entries !! k = Some e ->
               label_of e <> label_of shown_entry) ->
  let req := static_map_request (PStr (api_key_field ui)) first_lat first_lng
               (PInt (zoom_field ui)) in
  let w' := sent req (offered ui lat lng entries w) in
  app ui w
  = match http_get req with
    | Return resp =>
        if (status_code resp =? 200)%Z then
          if pil_identify (content resp)
          then (Return tt,
                shown (Picture (ImageOf (content resp)) "Satellite Image") w')
          else (Raise UnidentifiedImageError, w')
        else
          (Return tt,
           shown (Error "Failed to download the image. Check your API key and quota.")
             w')
    | Raise e => (Raise e, w')
    end.
Proof.
  intros Hshown Hi Hlabel Hfirst req w'.
  assert (Hj : map label_of entries !! choice ui (length entries)
               = Some (label_of shown_entry))
    by exact (lookup_map _ _ _ _ Hshown).
  destruct (list_index_first _ _ _ Hj) as (i' & Hindex & Hi' & _ & Hfirst').
  assert (i' = i) as ->.
  { apply (first_position_unique (map label_of entries) (label_of shown_entry));
      [exact Hi' | exact Hfirst' | |].
    - rewrite (lookup_map _ _ _ _ Hi), <- Hlabel. reflexivity.
    - intros k Hk Hlk.
      apply lookup_map_inv in Hlk as (e & He & Hlk).
      exact (Hfirst k e Hk He Hlk). }
  search_places.
  rewrite (find_places_loop_described _ _ Hentries).
  change ([] ++ map place_of entries)%list with (map place_of entries).
  rewrite (truthy_list_map _ _ _ _ Hshown).
  rewrite run_bind, run_pure, place_labels_described.
  rewrite run_bind, run_st_selectbox. cbv zeta.
  rewrite length_map. fold (choice ui (length entries)).
  rewrite Hj, label_of_truthy.
  rewrite run_bind, run_pure, Hindex.
  assert (Hplace : getitem_int (PList (map place_of entries)) (Z.of_nat i)
                   = Return (place_of (name, first_lat, first_lng)))
    by exact (getitem_int_lookup _ _ _ (lookup_map _ _ _ _ Hi)).
  rewrite run_bind, run_pure, Hplace.
  rewrite run_bind, run_pure.
  change (getitem_str (place_of (name, first_lat, first_lng)) "latitude")
    with (Return first_lat).
  cbv beta iota.
  rewrite run_bind, run_pure, run_bind, run_pure.
  change (getitem_str (place_of (name, first_lat, first_lng)) "longitude")
    with (Return first_lng).
  cbv beta iota.
  rewrite run_bind, download_image_as_bytes_run.
  fold req. fold (offered ui lat lng entries w). fold w'.
  destruct (http_get req) as [resp|e]; [|reflexivity].
  destruct (status_code resp =? 200)%Z; [|reflexivity].
  rewrite run_bind. unfold Image_open.
  destruct (pil_identify (content resp)); reflexivity.
Qed.

(** C5: a search whose response holds an empty [results] array returns
    the empty list; the page then writes "No places found." and the
    pass ends after the geocoding and the search requests, without any
    request for imagery. *)
Theorem empty_results_no_places_found (w : world) :
  results = [] ->
  (forall api_key query location radius resp payload w0,
      http_get (places_request api_key query location radius) = Return resp ->
      json resp = Return payload ->
      at_path [Key "results"] payload = Some (PList []) ->
      find_places api_key query location radius w0
      = (Return [], sent (places_request api_key query location radius) w0))
  /\ fst (app ui w) = Return tt
  /\ page (snd (app ui w))
     = (page w ++ form ui
        ++ [Write ("Latitude: " +:+ py_str lat +:+ ", Longitude: " +:+ py_str lng);
            TextInput "Enter search query for nearby places" (query_field ui);
            Write "No places found."])%list
  /\ requests_sent (snd (app ui w))
     = (requests_sent w
        ++ [geocode_request (PStr (api_key_field ui)) (PStr (address_field ui));
            places_request (PStr (api_key_field ui)) (PStr (query_field ui))
              (PStr (py_str lat +:+ "," +:+ py_str lng)) (PInt 5000)])%list.
Proof.
  intros Hnone. split.
  - intros api_key query location radius resp payload w0 Hget Hjson Hempty.
    rewrite find_places_run, Hget, bind_return, Hjson, bind_return.
    rewrite (dict_get_at_path _ _ _ _ Hempty). reflexivity.
  - rewrite (app_no_places w Hnone). simpl.
    repeat split; rewrite <- ?app_assoc; reflexivity.
Qed.


(** C10: when several entries carry the label of the entry shown as
    chosen, the image is requested for the first entry of the list
    with that label, whichever of them was picked. *)
Theorem duplicate_label_selects_first (w : world) (shown_entry : entry) (i : nat)
    (name first_lat first_lng : pyval) :
  entries !! choice ui (length entries) = Some shown_entry ->
  entries !! i = Some (name, first_lat, first_lng) ->
  label_of (name, first_lat, first_lng) = label_of shown_entry ->
  (forall k e, (k < i)%nat -> entries !! k = Some e ->
               label_of e <> label_of shown_entry) ->
  requests_sent (snd (app ui w))
  = (requests_sent w
     ++ [geocode_request (PStr (api_key_field ui)) (PStr (address_field ui));
         places_request (PStr (api_key_field ui)) (PStr (query_field ui))
           (PStr (py_str lat +:+ "," +:+ py_str lng)) (PInt 5000);
         static_map_request (PStr (api_key_field ui)) first_lat first_lng
           (PInt (zoom_field ui))])%list.
Proof.
  intros Hshown Hi Hlabel Hfirst.
  rewrite (app_selection w _ _ _ _ _ Hshown Hi Hlabel Hfirst).
  destruct (http_get (static_map_request _ first_lat first_lng _)) as [resp|e];
    [destruct (status_code resp =? 200)%Z;
     [destruct (pil_identify (content resp))|]|];
    simpl; rewrite <- ?app_assoc; reflexivity.
Qed.

(** *** The other ends of a selection *)

(** With coordinates that print as numbers do, the entry shown as chosen
    decides the request, duplicates or not. *)
Lemma app_selection_plain (w : world) (name place_lat place_lng : pyval) :
  entries !! choice ui (length entries) = Some (name, place_lat, place_lng) ->
  Forall plain_coordinates entries ->
  let req := static_map_request (PStr (api_key_field ui)) place_lat place_lng
               (PInt (zoom_field ui)) in
  let w' := sent req (offered ui lat lng entries w) in
  app ui w
  = match http_get req with
    | Return resp =>
        if (status_code resp =? 200)%Z then
          if pil_identify (content resp)
          then (Return tt,
                shown (Picture (ImageOf (content resp)) "Satellite Image") w')
          else (Raise UnidentifiedImageError, w')
        else
          (Return tt,
           shown (Error "Failed to download the image. Check your API key and quota.")
             w')
    | Raise e => (Raise e, w')
    end.
Proof.
  intros Hshown Hplain.
  pose proof (lookup_map label_of _ _ _ Hshown) as Hj.
  destruct (list_index_first _ _ _ Hj) as (i & _ & Hi & _ & Hfirst).
  apply lookup_map_inv in Hi as ([[name' lat'] lng'] & Hi & Hlabel).
  assert (Hbefore : forall k e, (k < i)%nat -> entries !! k = Some e ->
                                label_of e <> label_of (name, place_lat, place_lng)).
  { intros k e Hk He Heq. apply (Hfirst k Hk).
    rewrite (lookup_map label_of _ _ _ He), Heq. reflexivity. }
  destruct (label_of_plain _ _ (Forall_lookup_1 _ _ _ _ Hplain Hi)
              (Forall_lookup_1 _ _ _ _ Hplain Hshown) Hlabel) as [Hlat_eq Hlng_eq].
  simpl in Hlat_eq, Hlng_eq.
  rewrite (app_selection w _ _ _ _ _ Hshown Hi Hlabel Hbefore).
  rewrite (static_map_request_text _ _ _ _ _ _ Hlat_eq Hlng_eq).
  reflexivity.
Qed.

(** X12: when the imagery response has a status other than 200, the page
    ends with the error "Failed to download the image. Check your API key
    and quota." in place of a picture; the pass returns normally. *)
Theorem failed_download_shows_error (w : world)
    (name place_lat place_lng : pyval) (resp : response) :
  entries !! choice ui (length entries) = Some (name, place_lat, place_lng) ->
  Forall plain_coordinates entries ->
  http_get (static_map_request (PStr (api_key_field ui)) place_lat place_lng
              (PInt (zoom_field ui))) = Return resp ->
  status_code resp <> 200 ->
  fst (app ui w) = Return tt
  /\ page (snd (app ui w))
     = (page w ++ form ui
        ++ [Write ("Latitude: " +:+ py_str lat +:+ ", Longitude: " +:+ py_str lng);
            TextInput "Enter search query for nearby places" (query_field ui);
            Selectbox "Select a place to view" (map label_of entries)
              (choice ui (length entries));
            Error "Failed to download the image. Check your API key and quota."])%list.
Proof.
  intros Hshown Hplain Hget Hnot.
  rewrite (app_selection_plain w _ _ _ Hshown Hplain), Hget.
  apply Z.eqb_neq in Hnot. rewrite Hnot. simpl.
  split; [reflexivity | rewrite <- ?app_assoc; reflexivity].
Qed.




End Visit.
(** * Further properties of the script *)

(** ** Geocoder: malformed answers and footprint *)

(** Run a [pure] step whose outcome is not known, by cases. *)
Ltac case_pure :=
  rewrite run_bind, run_pure;
  match goal with
  | |- context [match ?o with Return _ => _ | Raise _ => _ end] => destruct o
  end;
  cbv beta iota.

(** X1: a geocoding payload that is an object without a "status" key makes
    [get_lat_long] raise [KeyError('status')], after the request and
    without printing anything. *)
Theorem get_lat_long_missing_status (api_key address : pyval) (resp : response)
    (d : list (string * pyval)) (w : world) :
  http_get (geocode_request api_key address) = Return resp ->
  json resp = Return (PDict d) ->
  dict_lookup "status" d = None ->
  get_lat_long api_key address w
  = (Raise (KeyError (PStr "status")), sent (geocode_request api_key address) w).
Proof.
  intros Hget Hjson Hmissing.
  unfold get_lat_long. cbv zeta.
  rewrite run_bind, run_requests_get. fold (geocode_request api_key address).
  rewrite Hget, run_bind, run_pure, Hjson.
  rewrite run_bind, run_pure. unfold getitem_str. rewrite Hmissing. reflexivity.
Qed.

(** X2: a payload with status "OK" whose [results] array is empty makes
    [get_lat_long] raise [IndexError]: the status is trusted and
    [results[0]] is read without a test. *)
Theorem get_lat_long_ok_without_result (api_key address : pyval) (resp : response)
    (payload : pyval) (w : world) :
  http_get (geocode_request api_key address) = Return resp ->
  json resp = Return payload ->
  at_path [Key "status"] payload = Some (PStr "OK") ->
  at_path [Key "results"] payload = Some (PList []) ->
  get_lat_long api_key address w
  = (Raise IndexError, sent (geocode_request api_key address) w).
Proof.
  intros Hget Hjson Hstatus Hresults.
  unfold get_lat_long. cbv zeta.
  rewrite run_bind, run_requests_get. fold (geocode_request api_key address).
  rewrite Hget, run_bind, run_pure, Hjson.
  follow Hstatus. follow Hresults.
  rewrite run_bind, run_pure. subscripts.
  change (eq_str (PStr "OK") "OK") with true. cbv iota.
  rewrite run_bind, run_pure. subscripts. reflexivity.
Qed.

(** X3: whatever the server does, [get_lat_long] sends exactly one request,
    the geocoding one, and touches neither the files nor the page; it
    prints at most one line, and only when it returns [(None, None)]. *)
Theorem get_lat_long_footprint (api_key address : pyval) (w : world) :
  let run := get_lat_long api_key address w in
  requests_sent (snd run)
  = (requests_sent w ++ [geocode_request api_key address])%list
  /\ files (snd run) = files w
  /\ page (snd run) = page w
  /\ (stdout (snd run) = stdout w
      \/ fst run = Return (PNone, PNone)
         /\ exists line, stdout (snd run) = (stdout w ++ [line])%list).
Proof.
  unfold get_lat_long. cbv zeta.
  rewrite run_bind, run_requests_get. fold (geocode_request api_key address).
  destruct (http_get (geocode_request api_key address)) as [resp|e];
    [|simpl; auto].
  case_pure; [|simpl; auto].
  case_pure; [|simpl; auto].
  destruct (eq_str _ "OK").
  - case_pure; [|simpl; auto].
    case_pure; simpl; auto.
  - rewrite run_bind, run_pure. simpl.
    repeat split. right. split; [reflexivity|]. eexists. reflexivity.
Qed.


(** ** PlaceFinder: order, malformed answers and footprint *)

(** X4: on results that each have a name and coordinates, [find_places]
    returns one Place per result, in the order of the response, holding
    the name and the coordinates of the result; neither the status code
    nor any other field of the response is looked at. *)
Theorem find_places_lists_every_result (api_key query location radius : pyval)
    (resp : response) (payload : pyval) (results : list pyval)
    (entries : list entry) (w : world) :
  http_get (places_request api_key query location radius) = Return resp ->
  json resp = Return payload ->
  at_path [Key "results"] payload = Some (PList results) ->
  Forall2 describes results entries ->
  find_places api_key query location radius w
  = (Return (map place_of entries),
     sent (places_request api_key query location radius) w)
  /\ length (map place_of entries) = length results.
Proof.
  intros Hget Hjson Hresults Hentries. split.
  - rewrite find_places_run, Hget, bind_return, Hjson, bind_return.
    rewrite (dict_get_at_path _ _ _ _ Hresults), bind_return.
    change (py_iter (PList results)) with (Return results).
    rewrite bind_return, (find_places_loop_described _ _ Hentries). reflexivity.
  - rewrite length_map. symmetry. exact (Forall2_length _ _ _ Hentries).
Qed.

Lemma find_places_loop_nameless (good : list pyval) (entries : list entry)
    (d : list (string * pyval)) (rest : list pyval) :
  Forall2 describes good entries ->
  dict_lookup "name" d = None ->
  forall acc,
    find_places_loop (good ++ PDict d :: rest) acc = Raise (KeyError (PStr "name")).
Proof.
  intros Hgood Hnameless.
  induction Hgood as [|result [[name lat] lng] good entries (Hn & Hla & Hlo) _ IH];
    intros acc.
  - simpl. rewrite Hnameless. reflexivity.
  - follow Hn. follow Hla. follow Hlo. unify_reads.
    change ((result :: good) ++ PDict d :: rest)%list
      with (result :: (good ++ PDict d :: rest))%list.
    simpl find_places_loop. subscripts. apply IH.
Qed.

(** X5: one result without a "name" key spoils the whole search:
    [find_places] raises [KeyError('name')] and returns none of the
    places, not even those listed before the faulty result. *)
Theorem find_places_all_or_nothing (api_key query location radius : pyval)
    (resp : response) (payload : pyval) (good rest : list pyval)
    (entries : list entry) (d : list (string * pyval)) (w : world) :
  http_get (places_request api_key query location radius) = Return resp ->
  json resp = Return payload ->
  at_path [Key "results"] payload = Some (PList (good ++ PDict d :: rest)) ->
  Forall2 describes good entries ->
  dict_lookup "name" d = None ->
  find_places api_key query location radius w
  = (Raise (KeyError (PStr "name")),
     sent (places_request api_key query location radius) w).
Proof.
  intros Hget Hjson Hresults Hgood Hnameless.
  rewrite find_places_run, Hget, bind_return, Hjson, bind_return.
  rewrite (dict_get_at_path _ _ _ _ Hresults), bind_return.
  change (py_iter (PList (good ++ PDict d :: rest)))
    with (Return (good ++ PDict d :: rest)%list).
  rewrite bind_return, (find_places_loop_nameless _ _ _ _ Hgood Hnameless).
  reflexivity.
Qed.

(** X6: the default of [.get("results", [])] only covers a missing key.
    A body that is a JSON array makes [find_places] raise
    [AttributeError]; an object whose "results" is [null] makes it raise
    [TypeError]. *)
Theorem find_places_malformed_body (api_key query location radius : pyval)
    (resp : response) (payload : pyval) (w : world) :
  http_get (places_request api_key query location radius) = Return resp ->
  json resp = Return payload ->
  ((exists l, payload = PList l) ->
   fst (find_places api_key query location radius w) = Raise AttributeError)
  /\ (at_path [Key "results"] payload = Some PNone ->
      fst (find_places api_key query location radius w) = Raise TypeError).
Proof.
  intros Hget Hjson.
  rewrite find_places_run, Hget, bind_return, Hjson, bind_return. split.
  - intros [l ->]. reflexivity.
  - intros Hnull. rewrite (dict_get_at_path _ _ _ _ Hnull). reflexivity.
Qed.

(** X7: whatever the server does, [find_places] changes the world by one
    request only, carrying the query, the location, the radius and the
    key as parameters: it prints nothing, writes no file and draws
    nothing. *)
Theorem find_places_footprint (api_key query location radius : pyval) (w : world) :
  snd (find_places api_key query location radius w)
  = sent {| url := "https://maps.googleapis.com/maps/api/place/textsearch/json";
            params := [("query", query); ("location", location);
                       ("radius", radius); ("key", api_key)] |} w.
Proof. rewrite find_places_run. reflexivity. Qed.


(** ** ImageryFetcher: frame and footprint *)

(** X8: whatever the server does, [download_satellite_image] leaves every
    file other than [img_file_name] as it was, draws nothing and sends
    exactly the static-map request. *)
Theorem download_satellite_image_frame (api_key lat lon zoom : pyval)
    (img_file_name other : string) (w : world) :
  other <> img_file_name ->
  let run := download_satellite_image api_key lat lon zoom img_file_name w in
  files (snd run) !! other = files w !! other
  /\ page (snd run) = page w
  /\ requests_sent (snd run)
     = (requests_sent w ++ [static_map_request api_key lat lon zoom])%list.
Proof.
  intros Hother run. subst run.
  rewrite download_satellite_image_run.
  destruct (http_get (static_map_request api_key lat lon zoom)) as [resp|e];
    [|simpl; auto].
  destruct (status_code resp =? 200)%Z; [|simpl; auto].
  destruct (fs img_file_name (content resp)) as [|e|e reached]; simpl;
    repeat split; try (apply lookup_insert_ne; congruence).
Qed.

(** X9: whatever the server does, [download_image_as_bytes] changes the
    world by the static-map request only (nothing printed, written or
    drawn), and a stream it returns holds exactly the body of a response
    whose status is 200. *)
Theorem download_image_as_bytes_footprint (api_key lat lon zoom : pyval) (w : world) :
  let run := download_image_as_bytes api_key lat lon zoom w in
  snd run = sent (static_map_request api_key lat lon zoom) w
  /\ forall buf, fst run = Return (Some (BytesIO buf)) ->
       exists resp, http_get (static_map_request api_key lat lon zoom) = Return resp
                    /\ status_code resp = 200
                    /\ content resp = buf.
Proof.
  intros run. subst run. rewrite download_image_as_bytes_run.
  destruct (http_get (static_map_request api_key lat lon zoom)) as [resp|e];
    [|split; [reflexivity | discriminate]].
  split; [reflexivity|]. simpl.
  destruct (Z.eqb_spec (status_code resp) 200) as [H200|Hnot]; [|discriminate].
  intros buf Hbuf. injection Hbuf as <-. exists resp. auto.
Qed.

(** ** No exception is handled *)

(** X10: when the network is down (every request raises [e]), each of the
    four functions raises [e] after its one request; nothing is printed
    and no file is written. *)
Theorem network_down_propagates (e : exn) (api_key address query location radius
    lat lon zoom : pyval) (img_file_name : string) (w : world) :
  (forall req, http_get req = Raise e) ->
  get_lat_long api_key address w
  = (Raise e, sent (geocode_request api_key address) w)
  /\ find_places api_key query location radius w
     = (Raise e, sent (places_request api_key query location radius) w)
  /\ download_satellite_image api_key lat lon zoom img_file_name w
     = (Raise e, sent (static_map_request api_key lat lon zoom) w)
  /\ download_image_as_bytes api_key lat lon zoom w
     = (Raise e, sent (static_map_request api_key lat lon zoom) w).
Proof.
  intros Hdown. repeat split.
  - unfold get_lat_long. cbv zeta.
    rewrite run_bind, run_requests_get, Hdown. reflexivity.
  - rewrite find_places_run, Hdown. reflexivity.
  - rewrite download_satellite_image_run, Hdown. reflexivity.
  - rewrite download_image_as_bytes_run, Hdown. reflexivity.
Qed.

(** X11: a response whose body is not JSON (so that [response.json()]
    raises [e]) makes [get_lat_long] and [find_places] raise [e]. *)
Theorem body_not_json_propagates (e : exn) (api_key address query location radius : pyval)
    (resp : response) (w : world) :
  json resp = Raise e ->
  (http_get (geocode_request api_key address) = Return resp ->
   get_lat_long api_key address w
   = (Raise e, sent (geocode_request api_key address) w))
  /\ (http_get (places_request api_key query location radius) = Return resp ->
      find_places api_key query location radius w
      = (Raise e, sent (places_request api_key query location radius) w)).
Proof.
  intros Hjson. split; intros Hget.
  - unfold get_lat_long. cbv zeta.
    rewrite run_bind, run_requests_get. fold (geocode_request api_key address).
    rewrite Hget, run_bind, run_pure, Hjson. reflexivity.
  - rewrite find_places_run, Hget, bind_return, Hjson. reflexivity.
Qed.


(** ** InteractionController: the other gates *)

(** X15: with both fields filled and a geocoding status other than "OK",
    the page writes "Location not found." and stops: one request only,
    the geocoding one, and the line [get_lat_long] printed. *)
Theorem location_not_found_stops (ui : session) (resp : response)
    (payload status : pyval) (w : world) :
  api_key_field ui <> "" ->
  address_field ui <> "" ->
  http_get (geocode_request (PStr (api_key_field ui)) (PStr (address_field ui)))
  = Return resp ->
  json resp = Return payload ->
  at_path [Key "status"] payload = Some status ->
  status <> PStr "OK" ->
  fst (app ui w) = Return tt
  /\ page (snd (app ui w)) = (page w ++ form ui ++ [Write "Location not found."])%list
  /\ requests_sent (snd (app ui w))
     = (requests_sent w
        ++ [geocode_request (PStr (api_key_field ui)) (PStr (address_field ui))])%list
  /\ stdout (snd (app ui w))
     = (stdout w ++ ["Error finding location: " +:+ py_str status])%list.
Proof.
  intros Hkey Haddress Hget Hjson Hstatus Hne.
  draw_form ui.
  rewrite (proj2 (truthy_str_true _) Haddress), (proj2 (truthy_str_true _) Hkey).
  change (true && true) with true. cbv iota.
  rewrite run_bind, (get_lat_long_not_found _ _ _ _ _ _ Hget Hjson Hstatus Hne).
  simpl. repeat split; rewrite <- ?app_assoc; reflexivity.
Qed.

(** X16: a geocoding payload with status "OK" whose latitude or longitude
    is [null] is treated as not found: the page writes "Location not
    found.", nothing is printed and no search is made. *)
Theorem null_coordinate_is_not_found (ui : session) (resp : response)
    (payload lat lng : pyval) (w : world) :
  api_key_field ui <> "" ->
  address_field ui <> "" ->
  http_get (geocode_request (PStr (api_key_field ui)) (PStr (address_field ui)))
  = Return resp ->
  json resp = Return payload ->
  at_path [Key "status"] payload = Some (PStr "OK") ->
  at_path [Key "results"; Idx 0; Key "geometry"; Key "location"; Key "lat"] payload
  = Some lat ->
  at_path [Key "results"; Idx 0; Key "geometry"; Key "location"; Key "lng"] payload
  = Some lng ->
  lat = PNone \/ lng = PNone ->
  fst (app ui w) = Return tt
  /\ page (snd (app ui w)) = (page w ++ form ui ++ [Write "Location not found."])%list
  /\ requests_sent (snd (app ui w))
     = (requests_sent w
        ++ [geocode_request (PStr (api_key_field ui)) (PStr (address_field ui))])%list
  /\ stdout (snd (app ui w)) = stdout w.
Proof.
  intros Hkey Haddress Hget Hjson Hstatus Hlat Hlng Hnull.
  draw_form ui.
  rewrite (proj2 (truthy_str_true _) Haddress), (proj2 (truthy_str_true _) Hkey).
  change (true && true) with true. cbv iota.
  rewrite run_bind, (get_lat_long_found _ _ _ _ _ _ _ Hget Hjson Hstatus Hlat Hlng).
  replace (negb (is_none lat) && negb (is_none lng)) with false
    by (destruct Hnull as [-> | ->]; simpl; [|rewrite andb_false_r]; reflexivity).
  simpl. repeat split; rewrite <- ?app_assoc; reflexivity.
Qed.

(** X17: when the query field is emptied, the pass stops after drawing it,
    without any message: the address is geocoded and shown, but no search
    is made. *)
Theorem empty_query_stops_silently (ui : session) (resp : response)
    (payload lat lng : pyval) (w : world) :
  api_key_field ui <> "" ->
  address_field ui <> "" ->
  http_get (geocode_request (PStr (api_key_field ui)) (PStr (address_field ui)))
  = Return resp ->
  json resp = Return payload ->
  at_path [Key "status"] payload = Some (PStr "OK") ->
  at_path [Key "results"; Idx 0; Key "geometry"; Key "location"; Key "lat"] payload
  = Some lat ->
  at_path [Key "results"; Idx 0; Key "geometry"; Key "location"; Key "lng"] payload
  = Some lng ->
  lat <> PNone ->
  lng <> PNone ->
  query_field ui = "" ->
  fst (app ui w) = Return tt
  /\ page (snd (app ui w))
     = (page w ++ form ui
        ++ [Write ("Latitude: " +:+ py_str lat +:+ ", Longitude: " +:+ py_str lng);
            TextInput "Enter search query for nearby places" ""])%list
  /\ requests_sent (snd (app ui w))
     = (requests_sent w
        ++ [geocode_request (PStr (api_key_field ui)) (PStr (address_field ui))])%list.
Proof.
  intros Hkey Haddress Hget Hjson Hstatus Hlat Hlng Hlat_some Hlng_some Hquery.
  draw_form ui.
  rewrite (proj2 (truthy_str_true _) Haddress), (proj2 (truthy_str_true _) Hkey).
  change (true && true) with true. cbv iota.
  rewrite run_bind, (get_lat_long_found _ _ _ _ _ _ _ Hget Hjson Hstatus Hlat Hlng).
  rewrite (is_none_false _ Hlat_some), (is_none_false _ Hlng_some).
  change (negb false && negb false) with true. cbv iota.
  rewrite run_bind, run_show.
  rewrite run_bind, run_st_text_input. fold (query_field ui).
  rewrite Hquery. simpl.
  repeat split; rewrite <- ?app_assoc; reflexivity.
Qed.

(** X18: with both fields filled and the network down, the pass draws the
    form, attempts the geocoding request and raises: nothing else is
    drawn, not even a message. *)
Theorem network_down_leaves_form (ui : session) (e : exn) (w : world) :
  api_key_field ui <> "" ->
  address_field ui <> "" ->
  http_get (geocode_request (PStr (api_key_field ui)) (PStr (address_field ui)))
  = Raise e ->
  fst (app ui w) = Raise e
  /\ page (snd (app ui w)) = (page w ++ form ui)%list
  /\ requests_sent (snd (app ui w))
     = (requests_sent w
        ++ [geocode_request (PStr (api_key_field ui)) (PStr (address_field ui))])%list.
Proof.
  intros Hkey Haddress Hget.
  draw_form ui.
  rewrite (proj2 (truthy_str_true _) Haddress), (proj2 (truthy_str_true _) Hkey).
  change (true && true) with true. cbv iota.
  rewrite run_bind. unfold get_lat_long. cbv zeta.
  rewrite run_bind, run_requests_get.
  fold (geocode_request (PStr (api_key_field ui)) (PStr (address_field ui))).
  rewrite Hget. simpl.
  repeat split; rewrite <- ?app_assoc; reflexivity.
Qed.


(** ** InteractionController: what a pass never does *)








End CampScouter.

(** * The scenarios, run on the stub server *)

Lemma resolve_returns_first_location_witness :
  fst (get_lat_long repr_table quote camp_server (PStr "KEY") (PStr "1 Camp Rd") initial)
  = Return (PFloat 45.0, PFloat (-71.0)).
Proof.
  eapply resolve_returns_first_location; reflexivity.
Defined.

Lemma resolve_not_found_witness :
  get_lat_long repr_table quote
    (serve (json_response (geocode_failed "ZERO_RESULTS")) (Raise RequestException)
       (Raise RequestException))
    (PStr "KEY") (PStr "nowhere") initial
  = (Return (PNone, PNone),
     {| requests_sent := [geocode_request (PStr "KEY") (PStr "nowhere")];
        stdout := ["Error finding location: ZERO_RESULTS"];
        files := ∅; page := [] |}).
Proof.
  edestruct (resolve_not_found repr_table quote
               (serve (json_response (geocode_failed "ZERO_RESULTS"))
                  (Raise RequestException) (Raise RequestException))
               (PStr "KEY") (PStr "nowhere")) as [Hrun _].
  - reflexivity.
  - reflexivity.
  - reflexivity.
  - vm_compute. congruence.
  - exact Hrun.
Defined.

Lemma download_iff_status_200_witness :
  fst (download_image_as_bytes repr_table quote
         (serve (Raise RequestException) (Raise RequestException) (image_response 404 []))
         (PStr "KEY") (PFloat 45.01) (PFloat (-71.01)) (PInt 14) initial)
  = Return None
  /\ files (snd (download_satellite_image repr_table quote camp_server flat_directory
                   (PStr "KEY") (PFloat 45.01) (PFloat (-71.01)) (PInt 14)
                   "camp.png" initial))
     = <["camp.png" := tiny_png]> ∅
  /\ fst (download_satellite_image repr_table quote camp_server full_disk
            (PStr "KEY") (PFloat 45.01) (PFloat (-71.01)) (PInt 14)
            "camp.png" initial)
     = Raise OSError.
Proof.
  split; [|split].
  - edestruct download_iff_status_200
      with (float_repr := repr_table) (str_repr := quote)
           (http_get := serve (Raise RequestException) (Raise RequestException)
                          (image_response 404 []))
           (fs := flat_directory)
           (api_key := PStr "KEY") (lat := PFloat 45.01) (lon := PFloat (-71.01))
           (zoom := PInt 14) (img_file_name := "camp.png") (w := initial)
      as (_ & _ & _ & Hfailed & _); [reflexivity|].
    destruct Hfailed as (_ & _ & _ & Hmemory); [vm_compute; congruence|].
    exact Hmemory.
  - edestruct download_iff_status_200
      with (float_repr := repr_table) (str_repr := quote) (http_get := camp_server)
           (fs := flat_directory)
           (api_key := PStr "KEY") (lat := PFloat 45.01) (lon := PFloat (-71.01))
           (zoom := PInt 14) (img_file_name := "camp.png") (w := initial)
      as (Hserved & _); [reflexivity|].
    destruct Hserved as (_ & Hfile & _); [reflexivity | reflexivity |].
    exact Hfile.
  - edestruct download_iff_status_200
      with (float_repr := repr_table) (str_repr := quote) (http_get := camp_server)
           (fs := full_disk)
           (api_key := PStr "KEY") (lat := PFloat 45.01) (lon := PFloat (-71.01))
           (zoom := PInt 14) (img_file_name := "camp.png") (w := initial)
      as (_ & _ & Hfull & _); [reflexivity|].
    edestruct Hfull as (Hraised & _); [reflexivity | reflexivity |].
    exact Hraised.
Defined.

(** The claim C2 read to the letter fails where [open] raises: the status
    is 200, yet no byte is written and nothing is reported. *)
Lemma download_iff_status_200_counterexample :
  let run path :=
    download_satellite_image repr_table quote camp_server flat_directory
      (PStr "KEY") (PFloat 45.01) (PFloat (-71.01)) (PInt 14) path initial in
  camp_server (static_map_request repr_table quote (PStr "KEY") (PFloat 45.01)
                 (PFloat (-71.01)) (PInt 14))
  = image_response 200 tiny_png
  /\ fst (run "no_such_dir/camp.png") = Raise FileNotFoundError
  /\ files (snd (run "no_such_dir/camp.png")) = ∅
  /\ stdout (snd (run "no_such_dir/camp.png")) = []
  /\ fst (run "") = Raise FileNotFoundError
  /\ files (snd (run "")) = ∅.
Proof. repeat split; reflexivity. Qed.

Lemma search_places_have_zoom_12_witness :
  exists places w',
    find_places camp_server (PStr "KEY") (PStr "camp sites") (PStr "45.0,-71.0")
      (PInt 5000) initial = (Return places, w')
    /\ length places = 3%nat
    /\ Forall (fun place => at_path [Key "zoom"] place = Some (PInt 12)) places.
Proof.
  eexists. eexists. split; [reflexivity|]. split; [reflexivity|].
  apply Forall_forall. intros place Hin.
  eapply (search_places_have_zoom_12 camp_server (PStr "KEY") (PStr "camp sites")
            (PStr "45.0,-71.0") (PInt 5000) initial);
    [reflexivity | exact Hin].
Defined.

Lemma search_without_results_key_witness :
  find_places
    (serve (Raise RequestException)
       (json_response (PDict [("status", PStr "INVALID_REQUEST")]))
       (Raise RequestException))
    (PStr "KEY") (PStr "camp sites") (PStr "45.0,-71.0") (PInt 5000) initial
  = (Return [],
     sent (places_request (PStr "KEY") (PStr "camp sites") (PStr "45.0,-71.0")
             (PInt 5000)) initial).
Proof.
  edestruct (search_without_results_key
               (serve (Raise RequestException)
                  (json_response (PDict [("status", PStr "INVALID_REQUEST")]))
                  (Raise RequestException))
               (PStr "KEY") (PStr "camp sites") (PStr "45.0,-71.0") (PInt 5000))
    as [Hrun _].
  - reflexivity.
  - reflexivity.
  - reflexivity.
  - exact Hrun.
Defined.

Lemma missing_input_stops_witness :
  requests_sent (snd (app repr_table quote camp_server png_signature
                        (visit "KEY" "" 14 0) initial)) = []
  /\ page (snd (app repr_table quote camp_server png_signature
                  (visit "KEY" "" 14 0) initial))
     = [Title "CampRecon";
        TextInput "Enter your Google API Key" "KEY";
        TextInput "Enter an address or location" "";
        NumberInput "Zoom Level" 0 21 14 1;
        Write "Please enter a valid API key and address."].
Proof.
  edestruct (missing_input_stops repr_table quote camp_server png_signature
               (visit "KEY" "" 14 0) initial) as (_ & Hpage & Hsent & _).
  - right. reflexivity.
  - split; [exact Hsent | exact Hpage].
Defined.

Lemma empty_results_no_places_found_witness :
  let run := app repr_table quote
               (serve (json_response geocode_ok) (json_response (search_json []))
                  (Raise RequestException))
               png_signature (visit "KEY" "1 Camp Rd" 14 0) initial in
  page (snd run)
  = [Title "CampRecon";
     TextInput "Enter your Google API Key" "KEY";
     TextInput "Enter an address or location" "1 Camp Rd";
     NumberInput "Zoom Level" 0 21 14 1;
     Write "Latitude: 45.0, Longitude: -71.0";
     TextInput "Enter search query for nearby places" "camp sites";
     Write "No places found."]
  /\ requests_sent (snd run)
     = [geocode_request (PStr "KEY") (PStr "1 Camp Rd");
        places_request (PStr "KEY") (PStr "camp sites") (PStr "45.0,-71.0") (PInt 5000)].
Proof.
  intros run. subst run.
  edestruct (empty_results_no_places_found repr_table quote
               (serve (json_response geocode_ok) (json_response (search_json []))
                  (Raise RequestException))
               png_signature (visit "KEY" "1 Camp Rd" 14 0))
    as (_ & _ & Hpage & Hsent).
  - vm_compute. congruence.
  - vm_compute. congruence.
  - reflexivity.
  - reflexivity.
  - reflexivity.
  - reflexivity.
  - reflexivity.
  - discriminate.
  - discriminate.
  - vm_compute. congruence.
  - reflexivity.
  - reflexivity.
  - reflexivity.
  - reflexivity.
  - split; [exact Hpage | exact Hsent].
Defined.



Lemma duplicate_label_selects_first_witness :
  requests_sent (snd (app repr_table quote camp_server png_signature
                        (visit "KEY" "1 Camp Rd" 14 2) initial))
  = [geocode_request (PStr "KEY") (PStr "1 Camp Rd");
     places_request (PStr "KEY") (PStr "camp sites") (PStr "45.0,-71.0") (PInt 5000);
     static_map_request repr_table quote (PStr "KEY") (PFloat 45.01) (PFloat (-71.01))
       (PInt 14)].
Proof.
  etransitivity.
  - eapply duplicate_label_selects_first
      with (entries := camp_entries) (i := 0%nat)
           (shown_entry := (PStr "Pine Camp", PFloat 45.01, PFloat (-71.01))).
    + vm_compute. congruence.
    + vm_compute. congruence.
    + reflexivity.
    + reflexivity.
    + reflexivity.
    + reflexivity.
    + reflexivity.
    + discriminate.
    + discriminate.
    + vm_compute. congruence.
    + reflexivity.
    + reflexivity.
    + reflexivity.
    + repeat constructor.
    + reflexivity.
    + reflexivity.
    + reflexivity.
    + intros k e Hk. lia.
  - reflexivity.
Defined.

(** * Further scenarios, run on the stub server *)

Lemma get_lat_long_missing_status_witness :
  fst (get_lat_long repr_table quote
         (serve (json_response (PDict [("error_message", PStr "denied")]))
            (Raise RequestException) (Raise RequestException))
         (PStr "KEY") (PStr "1 Camp Rd") initial)
  = Raise (KeyError (PStr "status")).
Proof.
  erewrite get_lat_long_missing_status; reflexivity.
Defined.

Lemma get_lat_long_ok_without_result_witness :
  fst (get_lat_long repr_table quote
         (serve (json_response (geocode_failed "OK"))
            (Raise RequestException) (Raise RequestException))
         (PStr "KEY") (PStr "1 Camp Rd") initial)
  = Raise IndexError.
Proof.
  erewrite get_lat_long_ok_without_result; reflexivity.
Defined.

Lemma find_places_lists_every_result_witness :
  fst (find_places camp_server (PStr "KEY") (PStr "camp sites") (PStr "45.0,-71.0")
         (PInt 5000) initial)
  = Return (map place_of camp_entries).
Proof.
  edestruct (find_places_lists_every_result camp_server (PStr "KEY")
               (PStr "camp sites") (PStr "45.0,-71.0") (PInt 5000))
    with (entries := camp_entries) (w := initial) as [Hrun _].
  - reflexivity.
  - reflexivity.
  - reflexivity.
  - repeat constructor.
  - rewrite Hrun. reflexivity.
Defined.

Lemma find_places_all_or_nothing_witness :
  fst (find_places
         (serve (Raise RequestException)
            (json_response
               (search_json [pine_camp;
                             PDict [("geometry", location_json 45.02 (-71.02))];
                             lake_camp]))
            (Raise RequestException))
         (PStr "KEY") (PStr "camp sites") (PStr "45.0,-71.0") (PInt 5000) initial)
  = Raise (KeyError (PStr "name")).
Proof.
  erewrite find_places_all_or_nothing
    with (good := [pine_camp]) (rest := [lake_camp])
         (entries := [(PStr "Pine Camp", PFloat 45.01, PFloat (-71.01))]);
    try reflexivity.
  repeat constructor.
Defined.

Lemma find_places_malformed_body_witness :
  fst (find_places
         (serve (Raise RequestException) (json_response (PList []))
            (Raise RequestException))
         (PStr "KEY") (PStr "camp sites") (PStr "45.0,-71.0") (PInt 5000) initial)
  = Raise AttributeError.
Proof.
  edestruct (find_places_malformed_body
               (serve (Raise RequestException) (json_response (PList []))
                  (Raise RequestException))
               (PStr "KEY") (PStr "camp sites") (PStr "45.0,-71.0") (PInt 5000))
    with (w := initial) as [Harray _].
  - reflexivity.
  - reflexivity.
  - apply Harray. exists []. reflexivity.
Defined.

Lemma download_satellite_image_frame_witness :
  files (snd (download_satellite_image repr_table quote camp_server flat_directory
                (PStr "KEY") (PFloat 45.01) (PFloat (-71.01)) (PInt 14)
                "camp.png" (stored "notes.txt" png_data initial)))
  !! "notes.txt" = Some png_data.
Proof.
  edestruct (download_satellite_image_frame repr_table quote camp_server
               flat_directory
               (PStr "KEY") (PFloat 45.01) (PFloat (-71.01)) (PInt 14)
               "camp.png" "notes.txt" (stored "notes.txt" png_data initial))
    as [Hother _].
  - discriminate.
  - rewrite Hother. reflexivity.
Defined.

Lemma network_down_propagates_witness :
  fst (download_image_as_bytes repr_table quote (fun _ => Raise RequestException)
         (PStr "KEY") (PFloat 45.01) (PFloat (-71.01)) (PInt 14) initial)
  = Raise RequestException.
Proof.
  edestruct (network_down_propagates repr_table quote (fun _ => Raise RequestException)
               flat_directory RequestException (PStr "KEY") (PStr "1 Camp Rd") (PStr "camp sites")
               (PStr "45.0,-71.0") (PInt 5000) (PFloat 45.01) (PFloat (-71.01))
               (PInt 14) "camp.png" initial)
    as (_ & _ & _ & Hmemory).
  - intros req. reflexivity.
  - rewrite Hmemory. reflexivity.
Defined.

Lemma body_not_json_propagates_witness :
  fst (get_lat_long repr_table quote
         (serve (image_response 200 (list_byte_of_string "<html>"))
            (Raise RequestException) (Raise RequestException))
         (PStr "KEY") (PStr "1 Camp Rd") initial)
  = Raise JSONDecodeError.
Proof.
  edestruct (body_not_json_propagates repr_table quote
               (serve (image_response 200 (list_byte_of_string "<html>"))
                  (Raise RequestException) (Raise RequestException))
               JSONDecodeError (PStr "KEY") (PStr "1 Camp Rd") (PStr "camp sites")
               (PStr "45.0,-71.0") (PInt 5000)
               {| status_code := 200; content := list_byte_of_string "<html>";
                  json := Raise JSONDecodeError |} initial)
    as [Hgeocoder _].
  - reflexivity.
  - rewrite Hgeocoder; reflexivity.
Defined.

Lemma failed_download_shows_error_witness :
  last (page (snd (app repr_table quote
                     (serve (json_response geocode_ok)
                        (json_response (search_json [pine_camp]))
                        (image_response 403 []))
                     png_signature (visit "KEY" "1 Camp Rd" 14 0) initial)))
  = Some (Error "Failed to download the image. Check your API key and quota.").
Proof.
  edestruct failed_download_shows_error
    with (float_repr := repr_table) (str_repr := quote)
         (http_get := serve (json_response geocode_ok)
                        (json_response (search_json [pine_camp]))
                        (image_response 403 []))
         (pil_identify := png_signature) (ui := visit "KEY" "1 Camp Rd" 14 0)
         (entries := [(PStr "Pine Camp", PFloat 45.01, PFloat (-71.01))])
         (w := initial)
    as (_ & Hpage).
  - vm_compute. congruence.
  - vm_compute. congruence.
  - reflexivity.
  - reflexivity.
  - reflexivity.
  - reflexivity.
  - reflexivity.
  - discriminate.
  - discriminate.
  - vm_compute. congruence.
  - reflexivity.
  - reflexivity.
  - reflexivity.
  - repeat constructor.
  - reflexivity.
  - repeat constructor.
  - reflexivity.
  - vm_compute. congruence.
  - rewrite Hpage. reflexivity.
Defined.



Lemma location_not_found_stops_witness :
  let run := app repr_table quote
               (serve (json_response (geocode_failed "ZERO_RESULTS"))
                  (Raise RequestException) (Raise RequestException))
               png_signature (visit "KEY" "nowhere" 14 0) initial in
  last (page (snd run)) = Some (Write "Location not found.")
  /\ stdout (snd run) = ["Error finding location: ZERO_RESULTS"].
Proof.
  intros run. subst run.
  edestruct location_not_found_stops
    with (float_repr := repr_table) (str_repr := quote)
         (http_get := serve (json_response (geocode_failed "ZERO_RESULTS"))
                        (Raise RequestException) (Raise RequestException))
         (pil_identify := png_signature) (ui := visit "KEY" "nowhere" 14 0)
         (w := initial)
    as (_ & Hpage & _ & Hout).
  - vm_compute. congruence.
  - vm_compute. congruence.
  - reflexivity.
  - reflexivity.
  - reflexivity.
  - vm_compute. congruence.
  - rewrite Hpage, Hout. split; reflexivity.
Defined.

Lemma null_coordinate_is_not_found_witness :
  let run := app repr_table quote
               (serve
                  (json_response
                     (PDict [("results",
                              PList [PDict [("geometry",
                                             PDict [("location",
                                                     PDict [("lat", PNone);
                                                            ("lng", PFloat (-71.0))])])]]);
                             ("status", PStr "OK")]))
                  (Raise RequestException) (Raise RequestException))
               png_signature (visit "KEY" "1 Camp Rd" 14 0) initial in
  last (page (snd run)) = Some (Write "Location not found.")
  /\ stdout (snd run) = [].
Proof.
  intros run. subst run.
  edestruct null_coordinate_is_not_found
    with (float_repr := repr_table) (str_repr := quote)
         (http_get :=
            serve
              (json_response
                 (PDict [("results",
                          PList [PDict [("geometry",
                                         PDict [("location",
                                                 PDict [("lat", PNone);
                                                        ("lng", PFloat (-71.0))])])]]);
                         ("status", PStr "OK")]))
              (Raise RequestException) (Raise RequestException))
         (pil_identify := png_signature) (ui := visit "KEY" "1 Camp Rd" 14 0)
         (w := initial)
    as (_ & Hpage & _ & Hout).
  - vm_compute. congruence.
  - vm_compute. congruence.
  - reflexivity.
  - reflexivity.
  - reflexivity.
  - reflexivity.
  - reflexivity.
  - left. reflexivity.
  - rewrite Hpage, Hout. split; reflexivity.
Defined.

Lemma empty_query_stops_silently_witness :
  let cleared :=
    {| typed_text := fun label =>
         if String.eqb label "Enter search query for nearby places" then Some ""
         else typed_text (visit "KEY" "1 Camp Rd" 14 0) label;
       typed_number := typed_number (visit "KEY" "1 Camp Rd" 14 0);
       picked := picked (visit "KEY" "1 Camp Rd" 14 0) |} in
  let run := app repr_table quote camp_server png_signature cleared initial in
  last (page (snd run)) = Some (TextInput "Enter search query for nearby places" "")
  /\ requests_sent (snd run) = [geocode_request (PStr "KEY") (PStr "1 Camp Rd")].
Proof.
  intros cleared run. subst run.
  edestruct empty_query_stops_silently
    with (float_repr := repr_table) (str_repr := quote) (http_get := camp_server)
         (pil_identify := png_signature) (ui := cleared) (w := initial)
    as (_ & Hpage & Hsent).
  - vm_compute. congruence.
  - vm_compute. congruence.
  - reflexivity.
  - reflexivity.
  - reflexivity.
  - reflexivity.
  - reflexivity.
  - discriminate.
  - discriminate.
  - reflexivity.
  - rewrite Hpage, Hsent. split; reflexivity.
Defined.

Lemma network_down_leaves_form_witness :
  let run := app repr_table quote (fun _ => Raise RequestException) png_signature
               (visit "KEY" "1 Camp Rd" 14 0) initial in
  fst run = Raise RequestException
  /\ page (snd run) = form (visit "KEY" "1 Camp Rd" 14 0).
Proof.
  intros run. subst run.
  edestruct network_down_leaves_form
    with (float_repr := repr_table) (str_repr := quote)
         (http_get := fun _ : request => @Raise response RequestException)
         (pil_identify := png_signature) (ui := visit "KEY" "1 Camp Rd" 14 0)
         (w := initial)
    as (Hraised & Hpage & _).
  - vm_compute. congruence.
  - vm_compute. congruence.
  - reflexivity.
  - rewrite Hraised, Hpage. split; reflexivity.
Defined.
